(** * Codify: the /explain backend and the Streamlit front end

    A shallow embedding of [backend/main.py] and of the request-building
    and video-listing parts of [app.py], with the properties of the
    orchestration layer stated and proved over it.

    Python text is a sequence of Unicode code points, integers are
    unbounded, dictionaries coming from JSON are association lists, and
    code that logs, calls the video API or raises is written in a small
    trace-and-exception monad. *)

From Stdlib Require Import ZArith NArith List String Ascii Bool Lia.
From Stdlib Require Import DecimalString Sorted.
Import ListNotations.

Set Warnings "-register-all".
Open Scope Z_scope.

(** ** Python text *)

Module PyStr.

(** A character is its code point. *)
Definition char := N.
Definition str := list char.

(** A literal of the source, read code point by code point. *)
Definition lit (s : string) : str :=
  List.map N_of_ascii (list_ascii_of_string s).

Definition LF : char := 0x0A%N.
Definition CR : char := 0x0D%N.

(** The line boundaries of [str.splitlines]: LF, VT, FF, CR, FS, GS, RS,
    NEL, LINE SEPARATOR and PARAGRAPH SEPARATOR. *)
Definition line_boundaries : list char :=
  [0x0A; 0x0B; 0x0C; 0x0D; 0x1C; 0x1D; 0x1E; 0x85; 0x2028; 0x2029]%N.

Definition is_linebreak (c : char) : bool :=
  existsb (N.eqb c) line_boundaries.

(** The characters [str.strip] removes (those with [str.isspace]). *)
Definition whitespace : list char :=
  [0x09; 0x0A; 0x0B; 0x0C; 0x0D; 0x1C; 0x1D; 0x1E; 0x1F; 0x20; 0x85; 0xA0;
   0x1680; 0x2000; 0x2001; 0x2002; 0x2003; 0x2004; 0x2005; 0x2006; 0x2007;
   0x2008; 0x2009; 0x200A; 0x2028; 0x2029; 0x202F; 0x205F; 0x3000]%N.

Definition is_space (c : char) : bool :=
  existsb (N.eqb c) whitespace.

(** [s.splitlines()]: a CR immediately followed by LF is one boundary, and
    a boundary at the very end of the text opens no further line. *)
Fixpoint splitlines (s : str) : list str :=
  match s with
  | [] => []
  | c :: rest =>
      if is_linebreak c then
        [] :: match rest with
              | [] => []
              | d :: rest' =>
                  if (c =? CR)%N && (d =? LF)%N
                  then splitlines rest' else splitlines rest
              end
      else
        match splitlines rest with
        | [] => [[c]]
        | l :: ls => (c :: l) :: ls
        end
  end.

Fixpoint lstrip (s : str) : str :=
  match s with
  | [] => []
  | c :: rest => if is_space c then lstrip rest else s
  end.

Definition rstrip (s : str) : str := rev (lstrip (rev s)).

(** [s.strip()] *)
Definition strip (s : str) : str := rstrip (lstrip s).

(** Truth value of a text: non-empty. *)
Definition nonempty (s : str) : bool :=
  match s with [] => false | _ :: _ => true end.

(** [s.startswith(p)] *)
Fixpoint startswith (s p : str) {struct p} : bool :=
  match p, s with
  | [], _ => true
  | _ :: _, [] => false
  | a :: p', b :: s' => (a =? b)%N && startswith s' p'
  end.

(** [s[:n]] for a non-negative constant [n]. *)
Definition slice_to (n : nat) (s : str) : str := firstn n s.

(** [str(i)] for an integer, as an f-string renders it. *)
Definition of_int (i : Z) : str :=
  lit (NilZero.string_of_int (Z.to_int i)).

(** [s.split("\n")], used only to describe [splitlines]. *)
Fixpoint split_lf (s : str) : list str :=
  match s with
  | [] => [[]]
  | c :: rest =>
      if (c =? LF)%N then [] :: split_lf rest
      else match split_lf rest with
           | [] => [[c]]
           | l :: ls => (c :: l) :: ls
           end
  end.

End PyStr.
Import PyStr.

(** [enumerate(xs, start)] *)
Fixpoint enumerate {A : Type} (start : Z) (xs : list A) : list (Z * A) :=
  match xs with
  | [] => []
  | x :: rest => (start, x) :: enumerate (start + 1) rest
  end.

(** ** The data of [backend/main.py] *)

Record Options := mkOptions {
  safe_run : option bool;
  include_youtube : option bool;
  max_tokens : option Z
}.

Record ExplainLine := mkExplainLine {
  line_number : Z;
  code : str;
  explanation : str
}.

(** The body of the [for] loop of [explain]: a line that is not blank gets
    an entry appended. *)
Definition explain_step (lines : list ExplainLine) (il : Z * str)
  : list ExplainLine :=
  let '(i, line) := il in
  if nonempty (strip line)
  then lines ++ [mkExplainLine i line
                   (lit "Mock explanation for line " ++ of_int i)]
  else lines.

(** The loop of [explain] over [enumerate(code.splitlines(), start=1)]. *)
Definition explain_lines (src : str) : list ExplainLine :=
  fold_left explain_step (enumerate 1 (splitlines src)) [].

(** The numbered lines the loop retains. *)
Definition numbered_lines (src : str) : list (Z * str) :=
  List.map (fun e => (line_number e, code e)) (explain_lines src).

(** ** Values, exceptions and effects *)

(** A value that came out of JSON: what the video API returns and what the
    front end receives. Objects keep their keys in order; lookup takes the
    first binding of a key. *)
Inductive pyval : Type :=
| VNone
| VBool (b : bool)
| VInt (z : Z)
| VStr (s : str)
| VList (xs : list pyval)
| VDict (kvs : list (str * pyval)).

(** The exceptions (all of them subclasses of [Exception]). *)
Inductive exn : Type :=
| IndexError
| AttributeError
| TypeError
| KeyError (key : str)
| ClientError (msg : str)
| HTTPException (status_code : Z) (detail : str).

Inductive outcome (A : Type) : Type :=
| Returned (a : A)
| Raised (e : exn).
Arguments Returned {A} a.
Arguments Raised {A} e.

(** A computation leaves a trace of events and either returns or raises. *)
Definition M (E A : Type) : Type := (list E * outcome A)%type.

Definition ret {E A} (a : A) : M E A := ([], Returned a).

Definition raise {E A} (e : exn) : M E A := ([], Raised e).

Definition emit {E} (ev : E) : M E unit := ([ev], Returned tt).

Definition bind {E A B} (m : M E A) (k : A -> M E B) : M E B :=
  match m with
  | (t, Returned a) => let (t', r) := k a in (t ++ t', r)
  | (t, Raised e) => (t, Raised e)
  end.

(** [try: m  except Exception as e: h e] *)
Definition try_except {E A} (m : M E A) (h : exn -> M E A) : M E A :=
  match m with
  | (t, Raised e) => let (t', r) := h e in (t ++ t', r)
  | (t, Returned a) => (t, Returned a)
  end.

Declare Scope py_scope.
Delimit Scope py_scope with py.
Notation "x <- m ;; k" := (bind m (fun x => k))
  (at level 61, m at next level, right associativity) : py_scope.
Notation "m ;; k" := (bind m (fun _ => k))
  (at level 61, right associativity) : py_scope.
Open Scope py_scope.

Definition trace {E A} (m : M E A) : list E := fst m.
Definition result {E A} (m : M E A) : outcome A := snd m.

(** A [for] loop whose body updates an accumulator and may raise. *)
Fixpoint for_each {E A B} (xs : list A) (body : B -> A -> M E B) (acc : B)
  : M E B :=
  match xs with
  | [] => ret acc
  | x :: rest => acc' <- body acc x ;; for_each rest body acc'
  end.

Fixpoint lookup (k : str) (kvs : list (str * pyval)) : option pyval :=
  match kvs with
  | [] => None
  | (k', v) :: rest =>
      if list_eq_dec N.eq_dec k k' then Some v else lookup k rest
  end.

(** [bool(v)] *)
Definition truthy (v : pyval) : bool :=
  match v with
  | VNone => false
  | VBool b => b
  | VInt z => negb (z =? 0)
  | VStr s => nonempty s
  | VList xs => match xs with [] => false | _ => true end
  | VDict kvs => match kvs with [] => false | _ => true end
  end.

(** [d.get(k, default)]: only a dictionary has [get]. *)
Definition py_get {E} (d : pyval) (k : str) (default : pyval) : M E pyval :=
  match d with
  | VDict kvs =>
      ret (match lookup k kvs with Some v => v | None => default end)
  | _ => raise AttributeError
  end.

(** [d[k]] for a text key [k]. *)
Definition py_item {E} (d : pyval) (k : str) : M E pyval :=
  match d with
  | VDict kvs =>
      match lookup k kvs with Some v => ret v | None => raise (KeyError k) end
  | _ => raise TypeError
  end.

(** What [for item in v] iterates over. *)
Definition py_iter {E} (v : pyval) : M E (list pyval) :=
  match v with
  | VList xs => ret xs
  | VDict kvs => ret (List.map (fun kv => VStr (fst kv)) kvs)
  | VStr s => ret (List.map (fun c => VStr [c]) s)
  | _ => raise TypeError
  end.

(** ** The environment of the backend process *)

(** [YOUTUBE_API_KEY] is what [os.getenv] gave; [youtube_build] is [None]
    when the client library could not be imported, and otherwise stands for
    building the client and executing one search request; [render] is the
    interpreter's [str()] on values that are not text. *)
Record Env := mkEnv {
  YOUTUBE_API_KEY : option str;
  youtube_build : option (str -> str -> Z -> outcome pyval);
  render : pyval -> str
}.

Inductive event : Type :=
| SearchCalled (query : str) (max_results : Z)
| ApiRequest (key query : str) (max_results : Z)
| LogException (msg : str) (e : exn).

(** ["{v}"] inside an f-string. *)
Definition format_value (render : pyval -> str) (v : pyval) : str :=
  match v with
  | VStr s => s
  | _ => render v
  end.

Definition watch_prefix : str := lit "https://www.youtube.com/watch?v=".

(** [call_gemini_model]: the stub. *)
Definition call_gemini_model (prompt : str) (max_tokens : Z) : str :=
  lit "MOCK_RESPONSE: Explanation goes here.".

(** The request to the video API, with its outcome taken from the client. *)
Definition execute (client : str -> str -> Z -> outcome pyval)
    (key query : str) (max_results : Z) : M event pyval :=
  emit (ApiRequest key query max_results) ;;
  match client key query max_results with
  | Returned resp => ret resp
  | Raised e => raise e
  end.

(** One round of the loop over the items of the response. *)
Definition video_entry (env : Env) (videos : list pyval) (item : pyval)
  : M event (list pyval) :=
  snippet <- py_item item (lit "snippet") ;;
  title <- py_item snippet (lit "title") ;;
  id <- py_item item (lit "id") ;;
  video_id <- py_item id (lit "videoId") ;;
  id' <- py_item item (lit "id") ;;
  video_id' <- py_item id' (lit "videoId") ;;
  ret (videos ++
       [VDict [(lit "title", title);
               (lit "video_id", video_id);
               (lit "url",
                VStr (watch_prefix ++ format_value (render env) video_id'))]]).

Definition key_truthy (k : option str) : bool :=
  match k with
  | Some s => nonempty s
  | None => false
  end.

(** The loop of [youtube_search] over [resp.get("items", [])]. *)
Definition extract_videos (env : Env) (resp : pyval) : M event (list pyval) :=
  items <- py_get resp (lit "items") (VList []) ;;
  its <- py_iter items ;;
  for_each its (video_entry env) [].

(** The [try] block of [youtube_search]: the request, then the reading of
    its response. *)
Definition search_attempt (env : Env)
    (client : str -> str -> Z -> outcome pyval)
    (key query : str) (max_results : Z) : M event (list pyval) :=
  resp <- execute client key query max_results ;;
  extract_videos env resp.

(** [logger.exception("YouTube API error: %s", e)] *)
Definition search_log (e : exn) : event :=
  LogException (lit "YouTube API error: %s") e.

(** [youtube_search(query, max_results)]; the first event records the call
    itself. *)
Definition youtube_search (env : Env) (query : str) (max_results : Z)
  : M event (list pyval) :=
  emit (SearchCalled query max_results) ;;
  match YOUTUBE_API_KEY env, youtube_build env with
  | Some key, Some client =>
      if nonempty key then
        try_except (search_attempt env client key query max_results)
          (fun e => emit (search_log e) ;; ret [])
      else ret []
  | _, _ => ret []
  end.

(** ** The pydantic models and the endpoint *)

Module Request.
Record t := mk {
  code : str;
  language : str;
  user_level : str;
  options : option Options
}.
End Request.
Definition ExplainRequest : Type := Request.t.

Record ExplainResponse := mkExplainResponse {
  summary : option str;
  lines : option (list ExplainLine);
  related_videos : option (list pyval)
}.

(** [Options()] *)
Definition default_options : Options :=
  mkOptions (Some false) (Some true) (Some 1024).

(** A field of the JSON body: left out, [null], or given. *)
Inductive field (A : Type) : Type :=
| Absent
| Null
| Given (a : A).
Arguments Absent {A}.
Arguments Given {A} a.
Arguments Null {A}.

(** A field declared [Optional[T] = default]. *)
Definition optional {A} (default : option A) (f : field A) : option A :=
  match f with
  | Absent => default
  | Null => None
  | Given a => Some a
  end.

Record RawOptions := mkRawOptions {
  raw_safe_run : field bool;
  raw_include_youtube : field bool;
  raw_max_tokens : field Z
}.

Record RawRequest := mkRawRequest {
  raw_code : str;
  raw_language : str;
  raw_user_level : str;
  raw_options : field RawOptions
}.

(** What pydantic builds from a well-typed body. *)
Definition parse_options (r : RawOptions) : Options :=
  mkOptions (optional (Some false) (raw_safe_run r))
            (optional (Some true) (raw_include_youtube r))
            (optional (Some 1024) (raw_max_tokens r)).

Definition parse_request (r : RawRequest) : ExplainRequest :=
  Request.mk (raw_code r) (raw_language r) (raw_user_level r)
    (match raw_options r with
     | Absent => Some default_options
     | Null => None
     | Given o => Some (parse_options o)
     end).

(** Truth value of an [Optional[bool]]. *)
Definition flag (b : option bool) : bool :=
  match b with Some true => true | _ => false end.

(** [xs[0]] *)
Definition first_item {E A} (xs : list A) : M E A :=
  match xs with
  | [] => raise IndexError
  | x :: _ => ret x
  end.

(** [req.options.include_youtube] *)
Definition options_include_youtube {E} (req : ExplainRequest)
  : M E (option bool) :=
  match Request.options req with
  | Some o => ret (include_youtube o)
  | None => raise AttributeError
  end.

Definition explain_summary (n : nat) : str :=
  lit "Explained " ++ of_int (Z.of_nat n) ++ lit " lines.".

(** [explain(req)] *)
Definition explain (env : Env) (req : ExplainRequest)
  : M event ExplainResponse :=
  try_except
    (let lines := explain_lines (Request.code req) in
     want <- options_include_youtube req ;;
     videos <- (if flag want
                then (first <- first_item (splitlines (Request.code req)) ;;
                      youtube_search env (slice_to 50 first) 3)
                else ret []) ;;
     ret (mkExplainResponse (Some (explain_summary (List.length lines)))
            (Some lines) (Some videos)))
    (fun e =>
       emit (LogException (lit "Error in /explain: %s") e) ;;
       raise (HTTPException 500 (lit "Internal server error"))).

(** What the client of the API gets back. *)
Inductive http_response : Type :=
| Ok200 (body : ExplainResponse)
| ErrorResponse (status : Z) (detail : str).

(** [POST /explain]: the framework turns a raised [HTTPException] into a
    response with its status and detail. *)
Definition post_explain (env : Env) (body : RawRequest)
  : list event * http_response :=
  match explain env (parse_request body) with
  | (t, Returned r) => (t, Ok200 r)
  | (t, Raised (HTTPException s d)) => (t, ErrorResponse s d)
  | (t, Raised _) => (t, ErrorResponse 500 (lit "Internal Server Error"))
  end.

(** ** The front end ([app.py]) *)

Module App.

(** The options of the two select boxes. *)
Inductive Language := python | javascript | java | cpp | csharp | go.
Inductive Level := Beginner | Intermediate | Advanced.

Definition language_name (l : Language) : str :=
  lit (match l with
       | python => "python" | javascript => "javascript" | java => "java"
       | cpp => "cpp" | csharp => "csharp" | go => "go"
       end).

Definition level_label (l : Level) : str :=
  lit (match l with
       | Beginner => "Beginner"
       | Intermediate => "Intermediate"
       | Advanced => "Advanced"
       end).

(** [s.lower()] on the ASCII labels it is applied to. *)
Definition lower (s : str) : str :=
  List.map (fun c => if (0x41 <=? c)%N && (c <=? 0x5A)%N
                     then (c + 0x20)%N else c) s.

(** The state of the widgets when the script runs. *)
Record Form := mkForm {
  lang : Language;
  expertise : Level;
  code_area : str;
  uploaded : option str;
  explain_btn : bool;
  fix_btn : bool;
  practice_btn : bool;
  safe_run : bool;
  include_youtube : bool;
  max_tokens : Z
}.

(** The slider of [max_tokens] runs from 256 to 4096. *)
Definition slider_in_range (f : Form) : Prop :=
  256 <= max_tokens f <= 4096.

(** An uploaded file replaces the text area. *)
Definition source (f : Form) : str :=
  match uploaded f with
  | Some raw => raw
  | None => code_area f
  end.

Definition payload (f : Form) : RawRequest :=
  mkRawRequest (source f) (language_name (lang f))
    (lower (level_label (expertise f)))
    (Given (mkRawOptions (Given (safe_run f)) (Given (include_youtube f))
              (Given (max_tokens f)))).

Inductive ui : Type :=
| StWarning (msg : str)
| PostJson (endpoint : str) (body : RawRequest)
| StMarkdown (body : str)
| StVideo (url : str).

(** The ACTIONS part of the script, as the warning or the requests it
    sends (the rendering of each answer is left out). *)
Definition actions (f : Form) : list ui :=
  if explain_btn f || fix_btn f || practice_btn f then
    if negb (nonempty (source f)) || negb (nonempty (strip (source f)))
    then [StWarning (lit "Please paste or upload some code first.")]
    else (if explain_btn f
          then [PostJson (lit "/explain") (payload f)] else [])
      ++ (if fix_btn f then [PostJson (lit "/fix") (payload f)] else [])
      ++ (if practice_btn f
          then [PostJson (lit "/practice") (payload f)] else [])
  else [].

(** The [if]/[else] of [display_youtube_list] that turns an identifier
    into the address to play. *)
Definition video_url (video_id : str) : str :=
  if startswith video_id (lit "http") then video_id
  else watch_prefix ++ video_id.

(** One round of the loop of [display_youtube_list]. *)
Definition display_video (render : pyval -> str) (v : pyval) : M ui unit :=
  title <- py_get v (lit "title") (VStr (lit "YouTube video")) ;;
  by_video_id <- py_get v (lit "video_id") VNone ;;
  video_id <- (if truthy by_video_id then ret by_video_id
               else (by_id <- py_get v (lit "id") VNone ;;
                     if truthy by_id then ret by_id
                     else py_get v (lit "url") VNone)) ;;
  if negb (truthy video_id) then ret tt
  else
    url <- match video_id with
           | VStr s => ret (video_url s)
           | _ => raise AttributeError
           end ;;
    emit (StMarkdown (lit "**" ++ format_value render title ++ lit "**")) ;;
    emit (StVideo url).

Definition display_youtube_list (render : pyval -> str)
    (videos : list pyval) : M ui unit :=
  for_each videos (fun _ v => display_video render v) tt.

End App.

(** ** Notions used to state the properties *)

(** A blank line: nothing but whitespace (possibly nothing at all). *)
Definition blank (l : str) : Prop := Forall (fun c => is_space c = true) l.

(** Text whose only line boundaries are LF characters. *)
Definition lf_only (s : str) : Prop :=
  forall c, In c s -> is_linebreak c = true -> c = LF.

(** [split] leaves an empty piece after a final newline (and for the empty
    text); [splitlines] does not. *)
Fixpoint drop_final_empty (ls : list str) : list str :=
  match ls with
  | [] => []
  | l :: rest =>
      match rest with
      | [] => if nonempty l then [l] else []
      | _ :: _ => l :: drop_final_empty rest
      end
  end.

(** What follows a boundary character: the LF of a CR LF pair is part of
    the same boundary. *)
Definition after_break (c : char) (rest : str) : str :=
  match rest with
  | [] => []
  | d :: rest' => if (c =? CR)%N && (d =? LF)%N then rest' else rest
  end.

(** What one round of the loop of [explain] appends for a numbered line,
    and the test it makes first. *)
Definition line_entry (il : Z * str) : ExplainLine :=
  mkExplainLine (fst il) (snd il)
    (lit "Mock explanation for line " ++ of_int (fst il)).

Definition not_blank (il : Z * str) : bool := nonempty (strip (snd il)).

(** The answer of [explain] for a source and the videos found. *)
Definition response_of (src : str) (videos : list pyval) : ExplainResponse :=
  mkExplainResponse
    (Some (explain_summary (List.length (explain_lines src))))
    (Some (explain_lines src)) (Some videos).

(** What [explain] logs and raises when its body fails with [e]. *)
Definition internal_error (e : exn) : M event ExplainResponse :=
  ([LogException (lit "Error in /explain: %s") e],
   Raised (HTTPException 500 (lit "Internal server error"))).

(** A process with no API key and no client library. *)
Definition env_unconfigured : Env := mkEnv None None (fun _ => []).

(** A process whose client fails on every request. *)
Definition env_failing : Env :=
  mkEnv (Some (lit "key"))
        (Some (fun _ _ _ => Raised (ClientError (lit "transport error"))))
        (fun _ => []).

(** A process whose client answers with an item that has no snippet. *)
Definition env_malformed : Env :=
  mkEnv (Some (lit "key"))
        (Some (fun _ _ _ =>
                 Returned (VDict [(lit "items", VList [VDict []])])))
        (fun _ => []).

(** A request with the given source and otherwise usual fields. *)
Definition request_for (src : str) (o : option Options) : ExplainRequest :=
  Request.mk src (lit "python") (lit "beginner") o.

Definition body_for (src : str) (o : field RawOptions) : RawRequest :=
  mkRawRequest src (lit "python") (lit "beginner") o.

(** The same request with another value of one option or field. *)
Definition with_include_youtube (b : option bool) (req : ExplainRequest)
  : ExplainRequest :=
  Request.mk (Request.code req) (Request.language req)
    (Request.user_level req)
    (option_map (fun o => mkOptions (safe_run o) b (max_tokens o))
       (Request.options req)).

Definition with_max_tokens (z : option Z) (req : ExplainRequest)
  : ExplainRequest :=
  Request.mk (Request.code req) (Request.language req)
    (Request.user_level req)
    (option_map (fun o => mkOptions (safe_run o) (include_youtube o) z)
       (Request.options req)).

Definition with_language (l : str) (req : ExplainRequest) : ExplainRequest :=
  Request.mk (Request.code req) l (Request.user_level req)
    (Request.options req).

(** The search raises inside its [try] block: the client fails on the
    request, or the response is not of the expected shape. *)
Definition search_raises (env : Env) (query : str) (n : Z) : Prop :=
  exists key client e,
    YOUTUBE_API_KEY env = Some key /\ youtube_build env = Some client /\
    result (search_attempt env client key query n) = Raised e.

(** The first line of a text that has at least one character. *)
Definition first_nonempty_line (src : str) : option str :=
  find nonempty (splitlines src).

(** The queries handed to the video search, in order. *)
Fixpoint search_queries (t : list event) : list str :=
  match t with
  | [] => []
  | SearchCalled q _ :: rest => q :: search_queries rest
  | _ :: rest => search_queries rest
  end.

(** Events that show a provider at work: the search being called or a
    request going out to the video API. *)
Definition provider_event (ev : event) : bool :=
  match ev with
  | SearchCalled _ _ => true
  | ApiRequest _ _ _ => true
  | LogException _ _ => false
  end.

(** No API key, or no client library. *)
Definition credentials_absent (env : Env) : Prop :=
  key_truthy (YOUTUBE_API_KEY env) = false \/ youtube_build env = None.

(** The languages the select box of the front end offers. *)
Definition supported_languages : list str :=
  List.map lit ["python"; "javascript"; "java"; "cpp"; "csharp"; "go"]%string.

(** The source of the spec's example: two lines around an empty one. *)
Definition hi_bye : str :=
  lit "print('hi')" ++ [LF; LF] ++ lit "print('bye')".

(** ** The front end, continued: the request and the page *)

Module Front.

(** What the script does and shows, in order. *)
Inductive widget : Type :=
| StSpinner (msg : str)
| HttpPost (url : str) (json : RawRequest) (timeout : Z)
| StError (msg : str)
| StHeader (s : str)
| StSubheader (s : str)
| StMarkdown (s : str)
| StWrite (v : pyval)
| StCode (body language : str)
| StExpander (label : str)
| Listed (u : App.ui).

(** What [requests.post] comes back with: one of the exceptions of the
    library (no connection, timeout, ...) with its text, or a response
    with its status and its body, parsed when it is JSON. *)
Inductive reply : Type :=
| Failed (text : str)
| Answered (status : Z) (body : option pyval).



(** The surroundings of [post_json] in a script that got past that
    statement: the value of [BACKEND_URL], the network, and the texts of
    the errors [raise_for_status] and [resp.json] raise (the latter is a
    [RequestException] since requests 2.27). *)
Record Net := mkNet {
  BACKEND_URL : str;
  post : str -> RawRequest -> Z -> reply;
  http_error_text : Z -> str -> str;
  json_error_text : str
}.

Definition TIMEOUT : Z := 60.

Definition SLASH : char := 0x2F%N.

Fixpoint lstrip_slash (s : str) : str :=
  match s with
  | [] => []
  | c :: rest => if (c =? SLASH)%N then lstrip_slash rest else s
  end.

(** [s.rstrip('/')] *)
Definition rstrip_slash (s : str) : str := rev (lstrip_slash (rev s)).

(** The address [post_json] posts to. *)
Definition request_url (net : Net) (endpoint : str) : str :=
  rstrip_slash (BACKEND_URL net) ++ endpoint.

Definition request_failed (text : str) : M widget pyval :=
  emit (StError (lit "Backend request failed: " ++ text)) ;;
  ret VNone.

(** [post_json(endpoint, payload)]; [raise_for_status] raises for the
    statuses from 400 to 599. *)
Definition post_json (net : Net) (endpoint : str) (payload : RawRequest)
  : M widget pyval :=
  let url := request_url net endpoint in
  emit (StSpinner (lit "Contacting backend...")) ;;
  emit (HttpPost url payload TIMEOUT) ;;
  match post net url payload TIMEOUT with
  | Failed text => request_failed text
  | Answered status body =>
      if (400 <=? status) && (status <? 600)
      then request_failed (http_error_text net status url)
      else match body with
           | Some v => ret v
           | None => request_failed (json_error_text net)
           end
  end.

Definition SPACE : char := 0x20%N.

(** ["{n:3d}"]: right-aligned in at least three columns. *)
Definition rjust (width : nat) (s : str) : str :=
  repeat SPACE (width - List.length s) ++ s.

(** [sep.join(xs)] *)
Fixpoint join (sep : str) (xs : list str) : str :=
  match xs with
  | [] => []
  | x :: rest =>
      match rest with
      | [] => x
      | _ :: _ => x ++ sep ++ join sep rest
      end
  end.

(** [f"{i+1:3d}: {line}"] *)
Definition numbered_row (il : Z * str) : str :=
  rjust 3 (of_int (fst il + 1)) ++ lit ": " ++ snd il.

(** The text [show_code_with_lines] puts in the code block. *)
Definition numbered_listing (code : str) : str :=
  join [LF] (List.map numbered_row (enumerate 0 (splitlines code))).

(** [show_code_with_lines(code, lang)] *)
Definition show_code_with_lines (code lang : str) : M widget unit :=
  emit (StCode (numbered_listing code) lang).

(** [a or b], with [b] computed only when [a] is falsy. *)
Definition or_else (a : pyval) (b : M widget pyval) : M widget pyval :=
  if truthy a then ret a else b.

(** The header of the expander of one line explanation. *)
Definition line_header (render : pyval -> str) (ln code : pyval)
  : M widget str :=
  if truthy ln then ret (lit "Line " ++ format_value render ln)
  else match code with
       | VStr c =>
           let short := firstn 40 (strip c) in
           ret (if nonempty short then short else lit "Line")
       | _ => raise AttributeError
       end.

(** One round of the loop over the line explanations. *)
Definition show_line (render : pyval -> str) (lang : str) (item : pyval)
  : M widget unit :=
  by_number <- py_get item (lit "line_number") VNone ;;
  ln <- or_else by_number (py_get item (lit "ln") VNone) ;;
  code <- py_get item (lit "code") (VStr []) ;;
  by_explanation <- py_get item (lit "explanation") (VStr []) ;;
  expl <- or_else by_explanation (py_get item (lit "explain") (VStr [])) ;;
  header <- line_header render ln code ;;
  emit (StExpander header) ;;
  emit (StMarkdown (lit "```" ++ lang ++ [LF] ++ format_value render code ++
                    [LF] ++ lit "```")) ;;
  emit (StWrite expl).

(** The events of the video list, as events of the page. *)
Definition listed {A} (m : M App.ui A) : M widget A :=
  (List.map Listed (fst m), snd m).

(** What the script shows for a truthy answer of /explain. *)
Definition show_explanation (render : pyval -> str) (f : App.Form)
    (result : pyval) : M widget unit :=
  let lang := App.language_name (App.lang f) in
  emit (StHeader (lit "Line-by-line Explanation")) ;;
  summary <- py_get result (lit "summary") VNone ;;
  (if truthy summary
   then emit (StMarkdown (lit "**Summary:**")) ;; emit (StWrite summary)
   else ret tt) ;;
  lines <- py_get result (lit "lines") VNone ;;
  match lines with
  | VList (item :: items) =>
      emit (StSubheader (lit "Original code")) ;;
      show_code_with_lines (App.source f) lang ;;
      emit (StMarkdown (lit "----")) ;;
      for_each (item :: items) (fun _ it => show_line render lang it) tt
  | _ =>
      by_explanation <- py_get result (lit "explanation") VNone ;;
      explanation <- or_else by_explanation
                       (py_get result (lit "text") VNone) ;;
      emit (StWrite (if truthy explanation then explanation
                     else VStr (lit "No detailed line-by-line returned.")))
  end ;;
  by_related <- py_get result (lit "related_videos") VNone ;;
  vids <- or_else by_related (py_get result (lit "videos") VNone) ;;
  if App.include_youtube f && truthy vids
  then emit (StMarkdown (lit "---")) ;;
       emit (StSubheader (lit "YouTube resources")) ;;
       videos <- py_iter vids ;;
       listed (App.display_youtube_list render videos)
  else ret tt.

(** The part of the script run for the Explain button, once the source
    has passed the blank test. *)
Definition explain_action (net : Net) (render : pyval -> str) (f : App.Form)
  : M widget unit :=
  result <- post_json net (lit "/explain") (App.payload f) ;;
  if truthy result then show_explanation render f result else ret tt.

End Front.

(** ** Notions for the further properties *)

(** The requests sent to the video API, in order: key, query and
    max_results. *)
Fixpoint api_requests (t : list event) : list (str * str * Z) :=
  match t with
  | [] => []
  | ApiRequest key query n :: rest => (key, query, n) :: api_requests rest
  | _ :: rest => api_requests rest
  end.

(** An item of the response with the two paths the loop of
    [youtube_search] reads: [item["snippet"]["title"]] and
    [item["id"]["videoId"]]. *)
Definition item_has (item title video_id : pyval) : Prop :=
  exists kvs snippet ids,
    item = VDict kvs /\
    lookup (lit "snippet") kvs = Some (VDict snippet) /\
    lookup (lit "title") snippet = Some title /\
    lookup (lit "id") kvs = Some (VDict ids) /\
    lookup (lit "videoId") ids = Some video_id.

(** The dictionary the loop appends for a title and a video id. *)
Definition video_dict (env : Env) (title video_id : pyval) : pyval :=
  VDict [(lit "title", title);
         (lit "video_id", video_id);
         (lit "url",
          VStr (watch_prefix ++ format_value (render env) video_id))].

(** An item as the API sends it, with a text title and a text video id. *)
Definition api_item (title video_id : str) : pyval :=
  VDict [(lit "kind", VStr (lit "youtube#searchResult"));
         (lit "id", VDict [(lit "kind", VStr (lit "youtube#video"));
                           (lit "videoId", VStr video_id)]);
         (lit "snippet", VDict [(lit "title", VStr title)])].

(** A process whose client answers every request with the given items. *)
Definition env_answering (items : list pyval) : Env :=
  mkEnv (Some (lit "key"))
        (Some (fun _ _ _ =>
                 Returned (VDict [(lit "kind", VStr (lit "youtube#searchListResponse"));
                                  (lit "items", VList items)])))
        (fun _ => []).

(** The requests [explain] answers with a response: those with options
    that either do not ask for videos or come with a source that is not
    empty. *)
Definition servable (req : ExplainRequest) : bool :=
  match Request.options req with
  | Some o => negb (flag (include_youtube o)) || nonempty (Request.code req)
  | None => false
  end.

(** [d.get(k)] on a dictionary. *)
Definition get_or_none (k : str) (kvs : list (str * pyval)) : pyval :=
  match lookup k kvs with
  | Some v => v
  | None => VNone
  end.

(** [v.get("video_id") or v.get("id") or v.get("url")] on a dictionary. *)
Definition chosen_identifier (kvs : list (str * pyval)) : pyval :=
  if truthy (get_or_none (lit "video_id") kvs)
  then get_or_none (lit "video_id") kvs
  else if truthy (get_or_none (lit "id") kvs)
       then get_or_none (lit "id") kvs
       else get_or_none (lit "url") kvs.

(** What [display_youtube_list] shows for one video: its title in bold,
    then the player. *)
Definition shown_video (render : pyval -> str) (title : pyval) (url : str)
  : list App.ui :=
  [App.StMarkdown (lit "**" ++ format_value render title ++ lit "**");
   App.StVideo url].

(** The addresses handed to [st.video], in order. *)
Fixpoint played (t : list App.ui) : list str :=
  match t with
  | [] => []
  | App.StVideo url :: rest => url :: played rest
  | _ :: rest => played rest
  end.

(** An entry [display_youtube_list] cannot show: not a dictionary, or a
    dictionary whose identifier is not text (a number, a list, ...). *)
Definition unusable_video (v : pyval) : Prop :=
  (forall kvs, v <> VDict kvs) \/
  exists kvs,
    v = VDict kvs /\ truthy (chosen_identifier kvs) = true /\
    forall s, chosen_identifier kvs <> VStr s.

(** A character that is not a line boundary. *)
Definition no_break (c : char) : Prop := is_linebreak c = false.

(** The JSON of a line explanation and of a response, as the framework
    writes the two models: the fields in the order of their declaration. *)
Definition line_json (e : ExplainLine) : pyval :=
  VDict [(lit "line_number", VInt (line_number e));
         (lit "code", VStr (code e));
         (lit "explanation", VStr (explanation e))].

Definition option_json {A : Type} (json : A -> pyval) (o : option A)
  : pyval :=
  match o with
  | Some a => json a
  | None => VNone
  end.

Definition response_json (r : ExplainResponse) : pyval :=
  VDict [(lit "summary", option_json VStr (summary r));
         (lit "lines",
          option_json (fun ls => VList (List.map line_json ls)) (lines r));
         (lit "related_videos", option_json VList (related_videos r))].

(** What the backend sends back over HTTP for a body posted to /explain. *)
Definition backend_reply (env : Env) (body : RawRequest) : Front.reply :=
  match snd (post_explain env body) with
  | Ok200 r => Front.Answered 200 (Some (response_json r))
  | ErrorResponse status detail =>
      Front.Answered status (Some (VDict [(lit "detail", VStr detail)]))
  end.

(** A front end whose [BACKEND_URL] is [base] and whose network leads to
    the backend running in [env]; the backend has no other route than
    /explain. *)
Definition connected (env : Env) (base : str) : Front.Net :=
  Front.mkNet base
    (fun url body _ =>
       if list_eq_dec N.eq_dec url (Front.rstrip_slash base ++ lit "/explain")
       then backend_reply env body
       else Front.Answered 404
              (Some (VDict [(lit "detail", VStr (lit "Not Found"))])))
    (fun _ _ => []) [].

(** What the page shows for one line explanation: the expander, the code
    block and the explanation. *)
Definition line_widgets (render : pyval -> str) (lang : str)
    (e : ExplainLine) : list Front.widget :=
  [Front.StExpander (lit "Line " ++ render (VInt (line_number e)));
   Front.StMarkdown
     (lit "```" ++ lang ++ [LF] ++ code e ++ [LF] ++ lit "```");
   Front.StWrite (VStr (explanation e))].

(** The section of the page for the videos: nothing when there are none. *)
Definition page_videos (render : pyval -> str) (videos : list pyval)
  : M Front.widget unit :=
  match videos with
  | [] => ret tt
  | _ :: _ =>
      (Front.StMarkdown (lit "---") ::
       Front.StSubheader (lit "YouTube resources") ::
       List.map Front.Listed
         (trace (App.display_youtube_list render videos)),
       result (App.display_youtube_list render videos))
  end.

(** The top of the page for an answer with line explanations. *)
Definition page_top (f : App.Form) (summary_text : str)
  : list Front.widget :=
  [Front.StHeader (lit "Line-by-line Explanation");
   Front.StMarkdown (lit "**Summary:**");
   Front.StWrite (VStr summary_text);
   Front.StSubheader (lit "Original code");
   Front.StCode (Front.numbered_listing (App.source f))
     (App.language_name (App.lang f));
   Front.StMarkdown (lit "----")].

(** The events of a request that went through. *)
Definition request_events (net : Front.Net) (endpoint : str)
    (payload : RawRequest) : list Front.widget :=
  [Front.StSpinner (lit "Contacting backend...");
   Front.HttpPost (Front.request_url net endpoint) payload 60].

(** A widget that is not part of the section of the videos. *)
Definition no_video_widget (w : Front.widget) : Prop :=
  match w with
  | Front.Listed _ => False
  | Front.StSubheader s => s <> lit "YouTube resources"
  | _ => True
  end.





(** * Properties *)

(** ** Text: stripping and line splitting *)

Section Text.

Lemma lstrip_head (s : str) (c : char) (r : str) :
  lstrip s = c :: r -> is_space c = false.
Proof.
  induction s as [|a s IH]; simpl; [discriminate|].
  destruct (is_space a) eqn:Ha; [exact IH|].
  intros E; injection E as <- _; exact Ha.
Qed.

Lemma lstrip_blank (s : str) : blank s -> lstrip s = [].
Proof.
  induction 1 as [|a s Ha _ IH]; simpl; [reflexivity|].
  now rewrite Ha.
Qed.

Lemma lstrip_empty_blank (s : str) : lstrip s = [] -> blank s.
Proof.
  induction s as [|a s IH]; simpl; intros E; [constructor|].
  destruct (is_space a) eqn:Ha; [|discriminate].
  constructor; [exact Ha|exact (IH E)].
Qed.

(** [line.strip()] is falsy exactly on blank lines. *)
Lemma strip_falsy_iff_blank (l : str) :
  nonempty (strip l) = false <-> blank l.
Proof.
  unfold strip, rstrip; split.
  - intros E. apply lstrip_empty_blank.
    destruct (lstrip l) as [|c r] eqn:El; [reflexivity|exfalso].
    pose proof (lstrip_head l c r El) as Hc.
    destruct (rev (lstrip (rev (c :: r)))) as [|x xs] eqn:Er;
      [|simpl in E; discriminate].
    apply (f_equal (@rev char)) in Er; rewrite rev_involutive in Er.
    simpl in Er. apply lstrip_empty_blank in Er.
    unfold blank in Er; rewrite Forall_forall in Er.
    specialize (Er c). rewrite Er in Hc; [discriminate|].
    apply in_or_app; right; left; reflexivity.
  - intros B. now rewrite (lstrip_blank l B).
Qed.

Lemma strip_truthy_iff (l : str) :
  nonempty (strip l) = true <-> ~ blank l.
Proof.
  rewrite <- strip_falsy_iff_blank.
  destruct (nonempty (strip l)); split; congruence.
Qed.

Lemma splitlines_break (c : char) (rest : str) :
  is_linebreak c = true ->
  splitlines (c :: rest) = [] :: splitlines (after_break c rest).
Proof.
  intros H; simpl; rewrite H.
  destruct rest as [|d rest']; simpl; [reflexivity|].
  now destruct ((c =? CR)%N && (d =? LF)%N).
Qed.

Lemma splitlines_char (c : char) (rest : str) :
  is_linebreak c = false ->
  splitlines (c :: rest) =
  match splitlines rest with
  | [] => [[c]]
  | l :: ls => (c :: l) :: ls
  end.
Proof. intros H; simpl; now rewrite H. Qed.

Lemma after_break_length (c : char) (rest : str) :
  (List.length (after_break c rest) <= List.length rest)%nat.
Proof.
  destruct rest as [|d rest']; simpl; [lia|].
  destruct ((c =? CR)%N && (d =? LF)%N); simpl; lia.
Qed.

Lemma after_break_filter (c : char) (rest : str) :
  filter (fun x => negb (is_linebreak x)) (after_break c rest) =
  filter (fun x => negb (is_linebreak x)) rest.
Proof.
  destruct rest as [|d rest']; simpl; [reflexivity|].
  destruct ((c =? CR)%N && (d =? LF)%N) eqn:E; [|reflexivity].
  apply andb_prop in E as [_ E]. apply N.eqb_eq in E; subst d.
  reflexivity.
Qed.

(** Induction along the way [splitlines] consumes its argument. *)
Lemma splitlines_rect (P : str -> Prop) :
  P [] ->
  (forall c rest, is_linebreak c = true ->
                  P (after_break c rest) -> P (c :: rest)) ->
  (forall c rest, is_linebreak c = false -> P rest -> P (c :: rest)) ->
  forall s, P s.
Proof.
  intros Hnil Hbreak Hchar s.
  remember (List.length s) as n eqn:Hn.
  assert (Hle : (List.length s <= n)%nat) by lia. clear Hn.
  revert s Hle; induction n as [|n IH]; intros [|c rest] Hle;
    simpl in Hle; try exact Hnil; try lia.
  destruct (is_linebreak c) eqn:Hc.
  - apply Hbreak; [exact Hc|]. apply IH.
    pose proof (after_break_length c rest); lia.
  - apply Hchar; [exact Hc|]. apply IH; lia.
Qed.

Lemma splitlines_no_boundary (s : str) :
  Forall (Forall (fun c => is_linebreak c = false)) (splitlines s).
Proof.
  induction s as [|c rest Hc IH|c rest Hc IH] using splitlines_rect.
  - constructor.
  - rewrite (splitlines_break c rest Hc). constructor; [constructor|exact IH].
  - rewrite (splitlines_char c rest Hc).
    destruct (splitlines rest) as [|l ls].
    + repeat constructor; exact Hc.
    + inversion IH; subst. constructor; [constructor|]; assumption.
Qed.

Lemma splitlines_concat (s : str) :
  List.concat (splitlines s) = filter (fun c => negb (is_linebreak c)) s.
Proof.
  induction s as [|c rest Hc IH|c rest Hc IH] using splitlines_rect.
  - reflexivity.
  - rewrite (splitlines_break c rest Hc). simpl. rewrite Hc. simpl.
    now rewrite IH, after_break_filter.
  - rewrite (splitlines_char c rest Hc). simpl. rewrite Hc. simpl.
    rewrite <- IH. now destruct (splitlines rest).
Qed.

Lemma splitlines_empty_iff (s : str) : splitlines s = [] <-> s = [].
Proof.
  split; [|now intros ->].
  destruct s as [|c rest]; [reflexivity|]; simpl.
  destruct (is_linebreak c); [discriminate|].
  destruct (splitlines rest); discriminate.
Qed.

Lemma split_lf_nonempty (s : str) : split_lf s <> [].
Proof.
  destruct s as [|c rest]; simpl; [discriminate|].
  destruct (c =? LF)%N; [discriminate|].
  destruct (split_lf rest); discriminate.
Qed.

(** On text whose only boundaries are newlines, [splitlines] gives the
    pieces between the newlines, without the empty piece that follows a
    final newline. *)
Lemma splitlines_split_lf (s : str) :
  lf_only s -> splitlines s = drop_final_empty (split_lf s).
Proof.
  induction s as [|c rest IH]; intros Hs; [reflexivity|].
  assert (Hrest : lf_only rest)
    by (intros x Hx; apply Hs; right; exact Hx).
  specialize (IH Hrest).
  destruct (is_linebreak c) eqn:Hc.
  - assert (c = LF) by (apply Hs; [left; reflexivity|exact Hc]); subst c.
    rewrite (splitlines_break LF rest Hc). simpl split_lf.
    assert (Ha : after_break LF rest = rest) by (now destruct rest).
    rewrite Ha, IH.
    pose proof (split_lf_nonempty rest).
    simpl. destruct (split_lf rest); [contradiction|reflexivity].
  - rewrite (splitlines_char c rest Hc). simpl split_lf.
    assert (Hne : (c =? LF)%N = false).
    { destruct (c =? LF)%N eqn:E; [|reflexivity].
      apply N.eqb_eq in E; subst c. discriminate Hc. }
    rewrite Hne, IH.
    pose proof (split_lf_nonempty rest).
    destruct (split_lf rest) as [|l ls]; [contradiction|].
    destruct ls as [|l' ls]; simpl.
    + destruct l; reflexivity.
    + reflexivity.
Qed.

End Text.

(** ** The line index built by [explain] *)

Section LineIndex.

Lemma explain_loop (xs : list (Z * str)) (acc : list ExplainLine) :
  fold_left explain_step xs acc =
  acc ++ List.map line_entry (filter not_blank xs).
Proof.
  revert acc; induction xs as [|[i line] xs IH]; intros acc; simpl.
  - now rewrite app_nil_r.
  - rewrite IH. unfold not_blank; simpl.
    destruct (nonempty (strip line)); simpl; [|reflexivity].
    now rewrite <- app_assoc.
Qed.

Lemma explain_lines_eq (src : str) :
  explain_lines src =
  List.map line_entry (filter not_blank (enumerate 1 (splitlines src))).
Proof. unfold explain_lines. now rewrite explain_loop. Qed.

Lemma numbered_lines_eq (src : str) :
  numbered_lines src = filter not_blank (enumerate 1 (splitlines src)).
Proof.
  unfold numbered_lines. rewrite explain_lines_eq, map_map.
  rewrite <- (map_id (filter _ _)) at 2.
  apply map_ext. now intros [i l].
Qed.

Lemma In_enumerate {A : Type} (xs : list A) (start i : Z) (x : A) :
  In (i, x) (enumerate start xs) <->
  start <= i /\ nth_error xs (Z.to_nat (i - start)) = Some x.
Proof.
  revert start; induction xs as [|y xs IH]; intros start; simpl.
  - split; [tauto|]. intros [_ H]. now destruct (Z.to_nat (i - start)).
  - rewrite IH. split.
    + intros [E|[Hle Hn]].
      * injection E as <- <-. rewrite Z.sub_diag. split; [lia|reflexivity].
      * split; [lia|].
        replace (Z.to_nat (i - start)) with (S (Z.to_nat (i - (start + 1))))
          by lia.
        exact Hn.
    + intros [Hle Hn].
      destruct (Z.eq_dec i start) as [->|Hne].
      * rewrite Z.sub_diag in Hn. simpl in Hn. left. congruence.
      * right. split; [lia|].
        replace (Z.to_nat (i - start)) with (S (Z.to_nat (i - (start + 1))))
          in Hn by lia.
        exact Hn.
Qed.

Lemma enumerate_filter_sorted {A : Type} (f : Z * A -> bool)
    (xs : list A) (start : Z) :
  StronglySorted Z.lt (List.map fst (filter f (enumerate start xs))) /\
  Forall (fun i => start <= i) (List.map fst (filter f (enumerate start xs))).
Proof.
  revert start; induction xs as [|y xs IH]; intros start; simpl.
  - split; constructor.
  - destruct (IH (start + 1)) as [Hs Hb].
    assert (Hb' : Forall (fun i => start + 1 <= i)
                    (List.map fst (filter f (enumerate (start + 1) xs))))
      by exact Hb.
    destruct (f (start, y)); simpl.
    + split; constructor; try assumption; try lia.
      * eapply Forall_impl; [|exact Hb']. intros; simpl in *; lia.
      * eapply Forall_impl; [|exact Hb']. intros; simpl in *; lia.
    + split; [assumption|].
      eapply Forall_impl; [|exact Hb']. intros; simpl in *; lia.
Qed.

Lemma explain_lines_length (src : str) :
  List.length (explain_lines src) =
  List.length (filter (fun l => nonempty (strip l)) (splitlines src)).
Proof.
  rewrite explain_lines_eq, length_map.
  generalize 1. induction (splitlines src) as [|l ls IH]; intros start;
    simpl; [reflexivity|].
  unfold not_blank at 1; simpl.
  destruct (nonempty (strip l)); simpl; now rewrite IH.
Qed.

(** The retained lines are the lines that are not blank, each at its
    position among all the lines. *)
Lemma numbered_lines_spec (src : str) (i : Z) (l : str) :
  In (i, l) (numbered_lines src) <->
  1 <= i /\ nth_error (splitlines src) (Z.to_nat (i - 1)) = Some l /\
  ~ blank l.
Proof.
  rewrite numbered_lines_eq, filter_In, In_enumerate.
  unfold not_blank; simpl. rewrite strip_truthy_iff. tauto.
Qed.

End LineIndex.

(** C3. Line indexing splits the source at line boundaries (no retained
    or dropped line contains one, the lines put together are the source
    without its boundaries, and on a source whose only boundaries are
    newlines they are the pieces between the newlines); it keeps exactly
    the lines that are not blank, each with its 1-based position among all
    the lines, blank ones counted; the numbers increase, so the order is
    the source order; and the example with an empty line in the middle gives
    (1, print('hi')) and (3, print('bye')). *)
Theorem line_index_numbering :
  forall src : str,
    Forall (Forall (fun c => is_linebreak c = false)) (splitlines src) /\
    List.concat (splitlines src) =
      filter (fun c => negb (is_linebreak c)) src /\
    (lf_only src -> splitlines src = drop_final_empty (split_lf src)) /\
    (forall i l,
        In (i, l) (numbered_lines src) <->
        1 <= i /\ nth_error (splitlines src) (Z.to_nat (i - 1)) = Some l /\
        ~ blank l) /\
    StronglySorted Z.lt (List.map fst (numbered_lines src)) /\
    numbered_lines hi_bye = [(1, lit "print('hi')"); (3, lit "print('bye')")].
Proof.
  intros src.
  split; [apply splitlines_no_boundary|].
  split; [apply splitlines_concat|].
  split; [apply splitlines_split_lf|].
  split; [|split].
  - intros i l. apply numbered_lines_spec.
  - rewrite numbered_lines_eq. apply enumerate_filter_sorted.
  - reflexivity.
Qed.

(** The example source has no boundary but newlines, so the comparison
    with the pieces between newlines applies to it. *)
Lemma line_index_numbering_witness :
  lf_only hi_bye /\
  splitlines hi_bye = drop_final_empty (split_lf hi_bye) /\
  In (3, lit "print('bye')") (numbered_lines hi_bye).
Proof.
  assert (H : lf_only hi_bye).
  { intros c Hc Hb. vm_compute in Hc.
    repeat (destruct Hc as [<-|Hc]; [try discriminate Hb; reflexivity|]).
    contradiction. }
  destruct (line_index_numbering hi_bye) as (_ & _ & Hsplit & Hin & _).
  split; [exact H|]. split; [exact (Hsplit H)|].
  apply Hin. split; [lia|]. split; [reflexivity|].
  intros B. apply strip_falsy_iff_blank in B. discriminate B.
Defined.

(** ** The video search and the handler *)

(** Runs the sequencing of the monad as far as the outcomes are known. *)
Ltac run := cbv beta iota zeta delta [bind ret raise first_item try_except].

Section Handler.

Variable env : Env.

Lemma bind_returned {E A B} (t : list E) (a : A) (k : A -> M E B) :
  bind (t, Returned a) k = (t ++ fst (k a), snd (k a)).
Proof. unfold bind. now destruct (k a). Qed.

(** A handler that logs and returns makes the whole [try] return. *)
Lemma try_except_returns {E A} (m : M E A) (h : exn -> M E A) :
  (forall e, exists a, result (h e) = Returned a) ->
  exists a, result (try_except m h) = Returned a.
Proof.
  intros Hh. destruct m as [t [a|e]]; simpl.
  - now exists a.
  - destruct (Hh e) as [a Ha]. exists a.
    unfold result in *. now destruct (h e).
Qed.

(** The search never raises. *)
Lemma youtube_search_returns (query : str) (n : Z) :
  exists videos, result (youtube_search env query n) = Returned videos.
Proof.
  unfold youtube_search, emit. rewrite bind_returned. unfold result; simpl.
  destruct (YOUTUBE_API_KEY env) as [key|]; [|now exists []].
  destruct (youtube_build env) as [client|]; [|now exists []].
  destruct (nonempty key); [|now exists []].
  apply try_except_returns. intros e. now exists [].
Qed.

Lemma youtube_search_no_credentials (query : str) (n : Z) :
  credentials_absent env ->
  youtube_search env query n = ([SearchCalled query n], Returned []).
Proof.
  unfold credentials_absent, youtube_search, key_truthy.
  intros [Hk|Hb].
  - destruct (YOUTUBE_API_KEY env) as [key|]; [|reflexivity].
    rewrite Hk. now destruct (youtube_build env).
  - rewrite Hb. now destruct (YOUTUBE_API_KEY env).
Qed.

Lemma bind_silent {E A B} (m : M E A) (k : A -> M E B) :
  trace m = [] -> (forall a, trace (k a) = []) -> trace (bind m k) = [].
Proof.
  destruct m as [t [a|e]]; unfold trace; simpl; intros -> Hk;
    [|reflexivity].
  specialize (Hk a). now destruct (k a).
Qed.

Lemma py_get_silent {E} (d : pyval) (k : str) (default : pyval) :
  trace (@py_get E d k default) = [].
Proof. now destruct d. Qed.

Lemma py_item_silent {E} (d : pyval) (k : str) :
  trace (@py_item E d k) = [].
Proof. destruct d; try reflexivity. simpl. now destruct (lookup k kvs). Qed.

Lemma py_iter_silent {E} (v : pyval) : trace (@py_iter E v) = [].
Proof. now destruct v. Qed.

Lemma for_each_silent {E A B} (body : B -> A -> M E B) (xs : list A) :
  (forall acc x, trace (body acc x) = []) ->
  forall acc, trace (for_each xs body acc) = [].
Proof.
  intros Hb; induction xs as [|x xs IH]; intros acc; simpl;
    [reflexivity|].
  apply bind_silent; [apply Hb|exact IH].
Qed.

Create HintDb silent discriminated.
#[local] Hint Resolve bind_silent py_get_silent py_item_silent
  py_iter_silent for_each_silent : silent.

Lemma video_entry_silent (videos : list pyval) (item : pyval) :
  trace (video_entry env videos item) = [].
Proof. unfold video_entry. auto 20 with silent. Qed.

Lemma extract_videos_silent (resp : pyval) :
  trace (extract_videos env resp) = [].
Proof.
  unfold extract_videos.
  pose proof video_entry_silent. auto 10 with silent.
Qed.

(** The search when the key and the client are there: one request, and a
    log entry if the request or the reading of its response fails. *)
Lemma youtube_search_with_credentials
    (key : str) (client : str -> str -> Z -> outcome pyval)
    (query : str) (n : Z) :
  YOUTUBE_API_KEY env = Some key -> nonempty key = true ->
  youtube_build env = Some client ->
  youtube_search env query n =
  match client key query n with
  | Raised e =>
      ([SearchCalled query n; ApiRequest key query n; search_log e],
       Returned [])
  | Returned resp =>
      match result (extract_videos env resp) with
      | Returned videos =>
          ([SearchCalled query n; ApiRequest key query n], Returned videos)
      | Raised e =>
          ([SearchCalled query n; ApiRequest key query n; search_log e],
           Returned [])
      end
  end.
Proof.
  intros Hk Hne Hb. unfold youtube_search. rewrite Hk, Hb, Hne.
  unfold search_attempt, execute.
  destruct (client key query n) as [resp|e]; [|reflexivity].
  pose proof (extract_videos_silent resp) as Hs.
  unfold trace, result in *.
  cbv beta iota delta [bind emit ret try_except].
  destruct (extract_videos env resp) as [t [videos|e]]; simpl in Hs;
    subst t; reflexivity.
Qed.

Lemma search_attempt_result
    (client : str -> str -> Z -> outcome pyval) (key query : str) (n : Z) :
  result (search_attempt env client key query n) =
  match client key query n with
  | Raised e => Raised e
  | Returned resp => result (extract_videos env resp)
  end.
Proof.
  unfold search_attempt, execute.
  destruct (client key query n) as [resp|e]; [|reflexivity].
  cbv beta iota delta [bind emit ret result].
  now destruct (extract_videos env resp).
Qed.

Lemma youtube_search_raising (query : str) (n : Z) :
  search_raises env query n ->
  result (youtube_search env query n) = Returned [].
Proof.
  intros (key & client & e & Hk & Hb & He).
  destruct (nonempty key) eqn:Hne.
  2:{ rewrite youtube_search_no_credentials; [reflexivity|].
      left. now rewrite Hk. }
  rewrite (youtube_search_with_credentials key client query n Hk Hne Hb).
  rewrite search_attempt_result in He.
  destruct (client key query n) as [resp|e']; [|reflexivity].
  now rewrite He.
Qed.

(** Only the first event of a search is a call of the search. *)
Lemma youtube_search_queries (query : str) (n : Z) :
  search_queries (trace (youtube_search env query n)) = [query].
Proof.
  destruct (YOUTUBE_API_KEY env) as [key|] eqn:Hk.
  2:{ rewrite youtube_search_no_credentials; [reflexivity|].
      left. now rewrite Hk. }
  destruct (nonempty key) eqn:Hne.
  2:{ rewrite youtube_search_no_credentials; [reflexivity|].
      left. now rewrite Hk. }
  destruct (youtube_build env) as [client|] eqn:Hb.
  2:{ rewrite youtube_search_no_credentials; [reflexivity|]. now right. }
  rewrite (youtube_search_with_credentials key client query n Hk Hne Hb).
  destruct (client key query n) as [resp|e]; [|reflexivity].
  now destruct (result (extract_videos env resp)).
Qed.

(** *** The four ways through [explain] *)

Lemma explain_without_options (req : ExplainRequest) :
  Request.options req = None ->
  explain env req = internal_error AttributeError.
Proof.
  intros Ho. unfold explain, options_include_youtube. now rewrite Ho.
Qed.

Lemma explain_videos_off (req : ExplainRequest) (o : Options) :
  Request.options req = Some o -> flag (include_youtube o) = false ->
  explain env req = ([], Returned (response_of (Request.code req) [])).
Proof.
  intros Ho Hf. unfold explain, options_include_youtube.
  now rewrite Ho; simpl; rewrite Hf.
Qed.

Lemma explain_empty_source (req : ExplainRequest) (o : Options) :
  Request.options req = Some o -> flag (include_youtube o) = true ->
  splitlines (Request.code req) = [] ->
  explain env req = internal_error IndexError.
Proof.
  intros Ho Hf Hs. unfold explain, options_include_youtube.
  now rewrite Ho; simpl; rewrite Hf, Hs.
Qed.

Lemma explain_videos_on (req : ExplainRequest) (o : Options)
    (first : str) (rest : list str) :
  Request.options req = Some o -> flag (include_youtube o) = true ->
  splitlines (Request.code req) = first :: rest ->
  exists t videos,
    youtube_search env (slice_to 50 first) 3 = (t, Returned videos) /\
    explain env req = (t, Returned (response_of (Request.code req) videos)).
Proof.
  intros Ho Hf Hs.
  destruct (youtube_search_returns (slice_to 50 first) 3) as [videos Hv].
  destruct (youtube_search env (slice_to 50 first) 3) as [t r] eqn:Hy.
  unfold result in Hv; simpl in Hv; subst r.
  exists t, videos. split; [reflexivity|].
  unfold explain, options_include_youtube. rewrite Ho.
  run. rewrite Hf, Hs. run. rewrite Hy.
  unfold response_of. simpl. now rewrite app_nil_r.
Qed.

End Handler.

(** Whatever [explain] returns is the answer for its source, with some
    list of videos. *)
Lemma explain_returned (env : Env) (req : ExplainRequest)
    (resp : ExplainResponse) :
  result (explain env req) = Returned resp ->
  exists videos, resp = response_of (Request.code req) videos.
Proof.
  destruct (Request.options req) as [o|] eqn:Ho.
  2:{ rewrite (explain_without_options env req Ho). discriminate. }
  destruct (flag (include_youtube o)) eqn:Hf.
  2:{ rewrite (explain_videos_off env req o Ho Hf). intros E.
      exists []. now injection E. }
  destruct (splitlines (Request.code req)) as [|first rest] eqn:Hs.
  { rewrite (explain_empty_source env req o Ho Hf Hs). discriminate. }
  destruct (explain_videos_on env req o first rest Ho Hf Hs)
    as (t & videos & _ & ->).
  intros E. exists videos. now injection E.
Qed.

(** The search is called by [explain] at most once, and when it is, the
    request has options, asks for videos and has a first line. *)
Lemma explain_search_called (env : Env) (req : ExplainRequest) (q : str) :
  search_queries (trace (explain env req)) = [q] ->
  exists o first rest,
    Request.options req = Some o /\ flag (include_youtube o) = true /\
    splitlines (Request.code req) = first :: rest /\
    q = slice_to 50 first.
Proof.
  destruct (Request.options req) as [o|] eqn:Ho.
  2:{ rewrite (explain_without_options env req Ho). discriminate. }
  destruct (flag (include_youtube o)) eqn:Hf.
  2:{ rewrite (explain_videos_off env req o Ho Hf). discriminate. }
  destruct (splitlines (Request.code req)) as [|first rest] eqn:Hs.
  { rewrite (explain_empty_source env req o Ho Hf Hs). discriminate. }
  destruct (explain_videos_on env req o first rest Ho Hf Hs)
    as (t & videos & Hy & ->).
  pose proof (youtube_search_queries env (slice_to 50 first) 3) as Hq.
  rewrite Hy in Hq. unfold trace in *; simpl in *. rewrite Hq.
  intros E. exists o, first, rest. injection E as <-. auto.
Qed.

(** ** The video search fails soft *)

(** The video search never raises; when the credentials are absent (no
    key, or no client library) or its try block raises (the client fails,
    or the response cannot be read), it returns the empty list; and in
    that situation a call of /explain that reaches the search, and so
    every call with options and a source that is not empty, returns a
    response whose related_videos is the empty list. *)
Theorem video_search_fails_soft :
  forall env : Env,
    (forall query n,
        (exists videos,
            result (youtube_search env query n) = Returned videos) /\
        (credentials_absent env \/ search_raises env query n ->
         result (youtube_search env query n) = Returned [])) /\
    (forall req query,
        search_queries (trace (explain env req)) = [query] ->
        credentials_absent env \/ search_raises env query 3 ->
        exists resp,
          result (explain env req) = Returned resp /\
          related_videos resp = Some []) /\
    (forall req o,
        Request.options req = Some o ->
        Request.code req <> [] ->
        credentials_absent env \/
        search_raises env
          (slice_to 50 (hd [] (splitlines (Request.code req)))) 3 ->
        exists resp,
          result (explain env req) = Returned resp /\
          related_videos resp = Some []).
Proof.
  intros env.
  assert (Hsoft : forall query n,
             credentials_absent env \/ search_raises env query n ->
             result (youtube_search env query n) = Returned []).
  { intros query n [Hc|Hr].
    - now rewrite (youtube_search_no_credentials env query n Hc).
    - now apply youtube_search_raising. }
  assert (Hon : forall req o first rest,
             Request.options req = Some o ->
             flag (include_youtube o) = true ->
             splitlines (Request.code req) = first :: rest ->
             credentials_absent env \/
             search_raises env (slice_to 50 first) 3 ->
             exists resp,
               result (explain env req) = Returned resp /\
               related_videos resp = Some []).
  { intros req o first rest Ho Hf Hs Hsit.
    destruct (explain_videos_on env req o first rest Ho Hf Hs)
      as (t & videos & Hy & ->).
    specialize (Hsoft _ _ Hsit). rewrite Hy in Hsoft.
    unfold result in Hsoft; simpl in Hsoft. injection Hsoft as ->.
    eexists; split; reflexivity. }
  split; [|split].
  - intros query n. split; [apply youtube_search_returns|apply Hsoft].
  - intros req query Hq Hsit.
    destruct (explain_search_called env req query Hq)
      as (o & first & rest & Ho & Hf & Hs & ->).
    now apply (Hon req o first rest).
  - intros req o Ho Hne Hsit.
    destruct (flag (include_youtube o)) eqn:Hf.
    + destruct (splitlines (Request.code req)) as [|first rest] eqn:Hs.
      { apply splitlines_empty_iff in Hs. contradiction. }
      now apply (Hon req o first rest).
    + rewrite (explain_videos_off env req o Ho Hf).
      eexists; split; reflexivity.
Qed.

(** With no key and no client library, and with a client that fails, a
    request for [x = 1] gets its answer with no videos. *)
Lemma video_search_fails_soft_witness :
  (exists resp,
      result (explain env_unconfigured
                (request_for (lit "x = 1") (Some default_options)))
      = Returned resp /\ related_videos resp = Some []) /\
  (exists resp,
      result (explain env_failing
                (request_for (lit "x = 1") (Some default_options)))
      = Returned resp /\ related_videos resp = Some []) /\
  result (youtube_search env_failing (lit "x = 1") 3) = Returned [] /\
  result (youtube_search env_malformed (lit "x = 1") 3) = Returned [].
Proof.
  split; [|split; [|split]].
  - apply (proj1 (proj2 (video_search_fails_soft env_unconfigured))
             (request_for (lit "x = 1") (Some default_options))
             (lit "x = 1")).
    + reflexivity.
    + left. left. reflexivity.
  - apply (proj2 (proj2 (video_search_fails_soft env_failing))
             (request_for (lit "x = 1") (Some default_options))
             default_options).
    + reflexivity.
    + discriminate.
    + right. unfold search_raises. simpl.
      eexists _, _, _. repeat split; reflexivity.
  - apply (proj1 (video_search_fails_soft env_failing) (lit "x = 1") 3).
    right. unfold search_raises. simpl.
    eexists _, _, _. repeat split; reflexivity.
  - apply (proj1 (video_search_fails_soft env_malformed) (lit "x = 1") 3).
    right. unfold search_raises. simpl.
    eexists _, _, _. repeat split; reflexivity.
Defined.

(** C2 does not hold of the handler. In the situation of the claim, with
    no key or no client library, the search itself returns the empty list
    and raises nothing; yet a request whose source is the empty text and
    whose options are left at their default (videos on) is answered with
    status 500 and not with an empty related_videos: the query is taken
    from [splitlines()[0]] before the search is called, outside the guard
    and the try block of [youtube_search], and that raises IndexError.
    A request with options null is answered 500 as well, for the
    AttributeError of reading [include_youtube]. The request with the
    empty source and videos off is answered 200 with no related videos,
    so the failure comes from the video path alone. *)
Theorem empty_source_breaks_fail_soft :
  forall env : Env,
    credentials_absent env ->
    (forall query n,
        youtube_search env query n = ([SearchCalled query n], Returned [])) /\
    (forall body,
        raw_code body = [] ->
        raw_options body = Absent ->
        post_explain env body =
        ([LogException (lit "Error in /explain: %s") IndexError],
         ErrorResponse 500 (lit "Internal server error"))) /\
    (forall body,
        raw_options body = Null ->
        post_explain env body =
        ([LogException (lit "Error in /explain: %s") AttributeError],
         ErrorResponse 500 (lit "Internal server error"))) /\
    (forall body ro,
        raw_code body = [] ->
        raw_options body = Given ro ->
        raw_include_youtube ro = Given false ->
        post_explain env body =
        ([], Ok200 (mkExplainResponse (Some (lit "Explained 0 lines."))
                      (Some []) (Some [])))).
Proof.
  intros env Hc.
  split.
  { intros query n. exact (youtube_search_no_credentials env query n Hc). }
  split; [|split].
  - intros body Hcode Ho. unfold post_explain.
    rewrite (explain_empty_source env (parse_request body) default_options).
    + reflexivity.
    + unfold parse_request; simpl. now rewrite Ho.
    + reflexivity.
    + simpl. now rewrite Hcode.
  - intros body Ho. unfold post_explain.
    rewrite (explain_without_options env (parse_request body)).
    + reflexivity.
    + unfold parse_request; simpl. now rewrite Ho.
  - intros body ro Hcode Ho Hi. unfold post_explain.
    rewrite (explain_videos_off env (parse_request body) (parse_options ro)).
    + simpl Request.code. rewrite Hcode. reflexivity.
    + unfold parse_request; simpl. now rewrite Ho.
    + unfold parse_options; simpl. now rewrite Hi.
Qed.

(** With no key and no client library: the empty source with the default
    options, the source [x = 1] with options null, and the empty source
    with videos off. *)
Lemma empty_source_breaks_fail_soft_witness :
  credentials_absent env_unconfigured /\
  youtube_search env_unconfigured [] 3 = ([SearchCalled [] 3], Returned []) /\
  post_explain env_unconfigured (body_for [] Absent) =
  ([LogException (lit "Error in /explain: %s") IndexError],
   ErrorResponse 500 (lit "Internal server error")) /\
  post_explain env_unconfigured (body_for (lit "x = 1") Null) =
  ([LogException (lit "Error in /explain: %s") AttributeError],
   ErrorResponse 500 (lit "Internal server error")) /\
  post_explain env_unconfigured
    (body_for [] (Given (mkRawOptions Absent (Given false) Absent))) =
  ([], Ok200 (mkExplainResponse (Some (lit "Explained 0 lines."))
                (Some []) (Some []))).
Proof.
  assert (Hc : credentials_absent env_unconfigured) by (left; reflexivity).
  split; [exact Hc|].
  split; [exact (proj1 (empty_source_breaks_fail_soft env_unconfigured Hc)
                   [] 3)|].
  split; [|split].
  - exact (proj1 (proj2 (empty_source_breaks_fail_soft env_unconfigured Hc))
             (body_for [] Absent) eq_refl eq_refl).
  - exact (proj1 (proj2 (proj2
             (empty_source_breaks_fail_soft env_unconfigured Hc)))
             (body_for (lit "x = 1") Null) eq_refl).
  - exact (proj2 (proj2 (proj2
             (empty_source_breaks_fail_soft env_unconfigured Hc)))
             (body_for [] (Given (mkRawOptions Absent (Given false) Absent)))
             (mkRawOptions Absent (Given false) Absent)
             eq_refl eq_refl eq_refl).
Defined.

(** ** Explanations and the line index *)

(** C6. Every line explanation in a response of /explain for a non-empty
    source carries the number and the text of a line of the line index of
    that source: a line of the source at that 1-based position that is
    not blank; so there are at most as many explanations as there are
    non-blank lines. *)
Theorem explanations_reference_indexed_lines :
  forall env req resp ls,
    Request.code req <> [] ->
    result (explain env req) = Returned resp ->
    lines resp = Some ls ->
    (forall e, In e ls ->
        In (line_number e, code e) (numbered_lines (Request.code req)) /\
        1 <= line_number e /\
        nth_error (splitlines (Request.code req))
          (Z.to_nat (line_number e - 1)) = Some (code e) /\
        ~ blank (code e)) /\
    (List.length ls <=
     List.length (filter (fun l => nonempty (strip l))
                    (splitlines (Request.code req))))%nat.
Proof.
  intros env req resp ls _ Hr Hl.
  destruct (explain_returned env req resp Hr) as [videos ->].
  simpl in Hl. injection Hl as <-. split.
  - intros e He.
    assert (Hin : In (line_number e, code e)
                    (numbered_lines (Request.code req))).
    { unfold numbered_lines.
      apply (in_map (fun e => (line_number e, code e))) in He. exact He. }
    split; [exact Hin|].
    apply numbered_lines_spec in Hin. exact Hin.
  - rewrite explain_lines_length. lia.
Qed.

(** The example source, requested with the default options. *)
Lemma explanations_reference_indexed_lines_witness :
  (forall e, In e (explain_lines hi_bye) ->
      In (line_number e, code e) (numbered_lines hi_bye) /\
      1 <= line_number e /\
      nth_error (splitlines hi_bye) (Z.to_nat (line_number e - 1))
        = Some (code e) /\
      ~ blank (code e)) /\
  (List.length (explain_lines hi_bye) <=
   List.length (filter (fun l => nonempty (strip l)) (splitlines hi_bye)))%nat.
Proof.
  apply (explanations_reference_indexed_lines env_unconfigured
           (request_for hi_bye (Some default_options))
           (response_of hi_bye []) (explain_lines hi_bye)).
  - discriminate.
  - reflexivity.
  - reflexivity.
Defined.

(** ** Videos switched off *)

(** C9. When the options of a request set include_youtube to false, the
    handler leaves no event at all (the video search is not called, no
    request goes to the API), related_videos is the empty list, and the
    summary and the lines are those of the same request with videos
    switched on: whatever response that request gets has the same two
    fields, and it gets one whenever the source is not empty. *)
Theorem videos_disabled :
  forall env req o,
    Request.options req = Some o ->
    include_youtube o = Some false ->
    exists resp,
      explain env req = ([], Returned resp) /\
      related_videos resp = Some [] /\
      (forall resp',
          result (explain env (with_include_youtube (Some true) req))
          = Returned resp' ->
          summary resp' = summary resp /\ lines resp' = lines resp) /\
      (Request.code req <> [] ->
       exists resp',
         result (explain env (with_include_youtube (Some true) req))
         = Returned resp').
Proof.
  intros env req o Ho Hf.
  exists (response_of (Request.code req) []).
  split; [|split; [reflexivity|split]].
  - apply (explain_videos_off env req o Ho). now rewrite Hf.
  - intros resp' Hr.
    destruct (explain_returned env _ resp' Hr) as [videos ->].
    split; reflexivity.
  - intros Hne.
    destruct (splitlines (Request.code req)) as [|first rest] eqn:Hs.
    { apply splitlines_empty_iff in Hs. contradiction. }
    destruct (explain_videos_on env (with_include_youtube (Some true) req)
                (mkOptions (safe_run o) (Some true) (max_tokens o))
                first rest) as (t & videos & _ & ->).
    + unfold with_include_youtube; simpl. now rewrite Ho.
    + reflexivity.
    + exact Hs.
    + eexists; reflexivity.
Qed.

Lemma videos_disabled_witness :
  exists resp,
    explain env_failing
      (request_for hi_bye (Some (mkOptions (Some false) (Some false) None)))
    = ([], Returned resp) /\
    related_videos resp = Some [] /\
    lines resp = Some (explain_lines hi_bye).
Proof.
  destruct (videos_disabled env_failing
              (request_for hi_bye
                 (Some (mkOptions (Some false) (Some false) None)))
              (mkOptions (Some false) (Some false) None)
              eq_refl eq_refl) as (resp & He & Hv & _).
  exists resp. split; [exact He|]. split; [exact Hv|].
  vm_compute in He. injection He as <-. reflexivity.
Defined.

(** ** The empty source *)

(** C10. A request with the empty string as its source whose options leave
    include_youtube at its default, true, is answered with status 500 and
    the detail Internal server error: taking the first line of the empty
    source fails in the handler, which logs the IndexError; the answer is
    neither a 4xx nor a 200. *)
Theorem empty_source_internal_error :
  forall env body,
    raw_code body = [] ->
    (raw_options body = Absent \/
     exists ro, raw_options body = Given ro /\
                raw_include_youtube ro = Absent) ->
    post_explain env body =
    ([LogException (lit "Error in /explain: %s") IndexError],
     ErrorResponse 500 (lit "Internal server error")).
Proof.
  intros env body Hc Ho. unfold post_explain.
  assert (He : explain env (parse_request body) = internal_error IndexError).
  { destruct Ho as [Ho|(ro & Ho & Hi)].
    - apply (explain_empty_source env _ default_options).
      + unfold parse_request; simpl. now rewrite Ho.
      + reflexivity.
      + simpl. now rewrite Hc.
    - apply (explain_empty_source env _ (parse_options ro)).
      + unfold parse_request; simpl. now rewrite Ho.
      + unfold parse_options; simpl. now rewrite Hi.
      + simpl. now rewrite Hc. }
  rewrite He. reflexivity.
Qed.

Lemma empty_source_internal_error_witness :
  post_explain env_unconfigured (body_for [] Absent) =
  ([LogException (lit "Error in /explain: %s") IndexError],
   ErrorResponse 500 (lit "Internal server error")).
Proof.
  apply (empty_source_internal_error env_unconfigured (body_for [] Absent)).
  - reflexivity.
  - left. reflexivity.
Defined.

(** ** Blank sources *)

Lemma blank_splitlines (src : str) :
  blank src -> Forall blank (splitlines src).
Proof.
  intros B. apply Forall_forall. intros l Hl. apply Forall_forall.
  intros c Hc.
  assert (Hin : In c (List.concat (splitlines src)))
    by (apply in_concat; exists l; split; assumption).
  rewrite splitlines_concat in Hin. apply filter_In in Hin as [Hin _].
  unfold blank in B. rewrite Forall_forall in B. now apply B.
Qed.

Lemma blank_explain_lines (src : str) : blank src -> explain_lines src = [].
Proof.
  intros B. apply length_zero_iff_nil. rewrite explain_lines_length.
  pose proof (blank_splitlines src B) as H.
  induction H as [|l ls Hl _ IH]; simpl; [reflexivity|].
  apply strip_falsy_iff_blank in Hl. now rewrite Hl.
Qed.

(** A blank source never leaves the front end. *)
Lemma blank_source_warning (f : App.Form) :
  blank (App.source f) ->
  App.actions f =
  if App.explain_btn f || App.fix_btn f || App.practice_btn f
  then [App.StWarning (lit "Please paste or upload some code first.")]
  else [].
Proof.
  intros B. unfold App.actions.
  apply strip_falsy_iff_blank in B. rewrite B.
  now rewrite orb_true_r.
Qed.

(** C1, as the code has it. The check for an empty or whitespace-only
    source is made by the front end: for such a source a pressed button
    shows the warning Please paste or upload some code first. and nothing
    else, so no request is sent and no provider is reached. The handler
    of /explain makes no such check and has no validation error: given a
    request that carries options (not null) and a whitespace-only source
    (with at least one character, or with videos switched off) it answers
    200 with the summary for zero lines and no line explanations, and it
    calls the video search exactly when videos are requested, with the
    first line of the source cut to 50 characters. *)
Theorem blank_source_handling :
  (forall f : App.Form,
      blank (App.source f) ->
      App.actions f =
      (if App.explain_btn f || App.fix_btn f || App.practice_btn f
       then [App.StWarning (lit "Please paste or upload some code first.")]
       else []) /\
      forall endpoint body,
        ~ In (App.PostJson endpoint body) (App.actions f)) /\
  (forall env body o,
      blank (raw_code body) ->
      Request.options (parse_request body) = Some o ->
      raw_code body <> [] \/ flag (include_youtube o) = false ->
      exists t videos,
        post_explain env body =
        (t, Ok200 (mkExplainResponse (Some (lit "Explained 0 lines."))
                     (Some []) (Some videos))) /\
        search_queries t =
        if flag (include_youtube o)
        then List.map (slice_to 50) (firstn 1 (splitlines (raw_code body)))
        else []).
Proof.
  split.
  - intros f B. split; [exact (blank_source_warning f B)|].
    intros endpoint body Hin.
    rewrite (blank_source_warning f B) in Hin.
    destruct (App.explain_btn f || App.fix_btn f || App.practice_btn f);
      simpl in Hin; [destruct Hin as [E|[]]; discriminate E|contradiction].
  - intros env body o B Ho Hcase.
    assert (Hresp : forall videos,
               response_of (raw_code body) videos =
               mkExplainResponse (Some (lit "Explained 0 lines."))
                 (Some []) (Some videos)).
    { intros videos. unfold response_of.
      now rewrite (blank_explain_lines (raw_code body) B). }
    unfold post_explain.
    destruct (flag (include_youtube o)) eqn:Hf.
    + destruct Hcase as [Hne|Hoff]; [|discriminate].
      destruct (splitlines (raw_code body)) as [|first rest] eqn:Hs.
      { apply splitlines_empty_iff in Hs. contradiction. }
      destruct (explain_videos_on env (parse_request body) o first rest
                  Ho Hf Hs) as (t & videos & Hy & ->).
      exists t, videos. simpl Request.code. rewrite Hresp.
      split; [reflexivity|].
      pose proof (youtube_search_queries env (slice_to 50 first) 3) as Hq.
      rewrite Hy in Hq. exact Hq.
    + rewrite (explain_videos_off env (parse_request body) o Ho Hf).
      exists [], []. simpl Request.code. rewrite Hresp.
      split; reflexivity.
Qed.

(** A single space as the source: the front end only warns; the handler,
    asked directly, answers 200 and searches for the space. *)
Lemma blank_source_handling_witness :
  App.actions
    (App.mkForm App.python App.Beginner (lit " ") None
       true false false false true 1024) =
  [App.StWarning (lit "Please paste or upload some code first.")] /\
  (forall endpoint body,
      ~ In (App.PostJson endpoint body)
          (App.actions
             (App.mkForm App.python App.Beginner (lit " ") None
                true false false false true 1024))) /\
  (exists t videos,
      post_explain env_unconfigured (body_for (lit " ") Absent) =
      (t, Ok200 (mkExplainResponse (Some (lit "Explained 0 lines."))
                   (Some []) (Some videos))) /\
      search_queries t = [lit " "]).
Proof.
  assert (B : blank (lit " ")) by (repeat constructor).
  split; [|split].
  - exact (proj1 (proj1 blank_source_handling
             (App.mkForm App.python App.Beginner (lit " ") None
                true false false false true 1024) B)).
  - exact (proj2 (proj1 blank_source_handling
             (App.mkForm App.python App.Beginner (lit " ") None
                true false false false true 1024) B)).
  - exact (proj2 blank_source_handling env_unconfigured
             (body_for (lit " ") Absent) default_options B eq_refl
             (or_introl (fun E => @nil_cons _ _ _ (eq_sym E)))).
Defined.

(** C1 fails as stated: a source of one space sent to /explain with the
    default options is whitespace-only, yet the answer is a 200 with a
    summary, not a validation error, and the video search was called. *)
Lemma blank_source_not_rejected :
  blank (raw_code (body_for (lit " ") Absent)) /\
  post_explain env_unconfigured (body_for (lit " ") Absent) =
  ([SearchCalled (lit " ") 3],
   Ok200 (mkExplainResponse (Some (lit "Explained 0 lines."))
            (Some []) (Some []))) /\
  existsb provider_event
    (fst (post_explain env_unconfigured (body_for (lit " ") Absent))) = true.
Proof.
  split; [repeat constructor|]. split; reflexivity.
Qed.

(** ** The search query *)

(** C4, as the code has it. When videos are requested and the source has a
    first line, the video search is called once, with the first line of the
    source cut to its first 50 characters, blank or not; that query is the
    first non-empty line, cut in the same way, exactly when the first line
    has a character, that is when the source does not start with an empty
    line. *)
Theorem search_query_is_first_line :
  forall env req o first rest,
    Request.options req = Some o ->
    flag (include_youtube o) = true ->
    splitlines (Request.code req) = first :: rest ->
    search_queries (trace (explain env req)) = [firstn 50 first] /\
    (List.length (firstn 50 first) <= 50)%nat /\
    (option_map (firstn 50) (first_nonempty_line (Request.code req)) =
     Some (firstn 50 first) <->
     nonempty first = true).
Proof.
  intros env req o first rest Ho Hf Hs.
  destruct (explain_videos_on env req o first rest Ho Hf Hs)
    as (t & videos & Hy & ->).
  pose proof (youtube_search_queries env (slice_to 50 first) 3) as Hq.
  rewrite Hy in Hq. split; [exact Hq|]. split.
  - rewrite length_firstn. lia.
  - unfold first_nonempty_line. rewrite Hs.
    destruct first as [|c first]; [|split; reflexivity].
    split; [|discriminate]. intros E. exfalso. cbn [find nonempty] in E.
    destruct (find nonempty rest) as [l|] eqn:Hfind; [|discriminate E].
    apply find_some in Hfind as [_ Hl].
    destruct l as [|a l]; [discriminate Hl|]. discriminate E.
Qed.

Lemma search_query_is_first_line_witness :
  search_queries
    (trace (explain env_failing (request_for hi_bye (Some default_options))))
  = [lit "print('hi')"] /\
  option_map (firstn 50) (first_nonempty_line hi_bye) =
  Some (lit "print('hi')").
Proof.
  destruct (search_query_is_first_line env_failing
              (request_for hi_bye (Some default_options)) default_options
              (lit "print('hi')") [[]; lit "print('bye')"]
              eq_refl eq_refl eq_refl) as (Hq & _ & Hfirst).
  split; [exact Hq|exact (proj2 Hfirst eq_refl)].
Defined.

(** C4 fails as stated: for a source that starts with an empty line the
    query is the empty text, not the first non-empty line. *)
Lemma search_query_not_first_nonempty_line :
  flag (include_youtube default_options) = true /\
  first_nonempty_line (LF :: lit "print(1)") = Some (lit "print(1)") /\
  search_queries
    (trace (explain env_unconfigured
              (request_for (LF :: lit "print(1)") (Some default_options))))
  = [[]] /\
  [] <> firstn 50 (lit "print(1)").
Proof.
  repeat split; try reflexivity. discriminate.
Qed.

(** ** The token budget *)

(** C7, as the code has it. The backend keeps max_tokens exactly as it was
    sent (1024 when the field is left out): it neither clamps nor rejects,
    and the handler's answer and events do not depend on the value, which no
    provider receives. Only the slider of the front end bounds it: a form
    whose slider is within 256 and 4096 sends that value unchanged. *)
Theorem max_tokens_kept_as_sent :
  (forall r z,
      raw_max_tokens r = Given z -> max_tokens (parse_options r) = Some z) /\
  (forall r,
      raw_max_tokens r = Absent -> max_tokens (parse_options r) = Some 1024) /\
  (forall env req z, explain env (with_max_tokens z req) = explain env req) /\
  (forall f,
      App.slider_in_range f ->
      exists o,
        Request.options (parse_request (App.payload f)) = Some o /\
        max_tokens o = Some (App.max_tokens f) /\
        256 <= App.max_tokens f <= 4096).
Proof.
  repeat split.
  - intros r z H. unfold parse_options; simpl. now rewrite H.
  - intros r H. unfold parse_options; simpl. now rewrite H.
  - intros env req z. unfold explain, options_include_youtube,
      with_max_tokens; simpl.
    now destruct (Request.options req).
  - intros f H. eexists. split; [reflexivity|]. split; [reflexivity|exact H].
Qed.

Lemma max_tokens_kept_as_sent_witness :
  max_tokens (parse_options (mkRawOptions Absent Absent (Given 5))) = Some 5 /\
  max_tokens (parse_options (mkRawOptions Absent Absent Absent)) = Some 1024 /\
  exists o,
    Request.options
      (parse_request
         (App.payload
            (App.mkForm App.go App.Advanced (lit "x") None
               true false false false true 4096))) = Some o /\
    max_tokens o = Some 4096 /\ 256 <= 4096 <= 4096.
Proof.
  destruct max_tokens_kept_as_sent as (Hg & Ha & _ & Hf).
  split; [exact (Hg (mkRawOptions Absent Absent (Given 5)) 5 eq_refl)|].
  split; [exact (Ha (mkRawOptions Absent Absent Absent) eq_refl)|].
  apply (Hf (App.mkForm App.go App.Advanced (lit "x") None
               true false false false true 4096)).
  unfold App.slider_in_range; simpl. lia.
Defined.

(** C7 fails as stated: a budget of 5, and one of 100000, reach the
    validated request as they were sent, outside [256, 4096], and the
    request is answered with a 200. *)
Lemma max_tokens_not_clamped :
  (exists o,
      Request.options
        (parse_request
           (body_for (lit "x = 1")
              (Given (mkRawOptions Absent Absent (Given 5))))) = Some o /\
      max_tokens o = Some 5) /\
  ~ 256 <= 5 <= 4096 /\
  (exists o,
      Request.options
        (parse_request
           (body_for (lit "x = 1")
              (Given (mkRawOptions Absent Absent (Given 100000))))) = Some o /\
      max_tokens o = Some 100000) /\
  ~ 256 <= 100000 <= 4096 /\
  post_explain env_unconfigured
    (body_for (lit "x = 1") (Given (mkRawOptions Absent Absent (Given 5)))) =
  ([SearchCalled (lit "x = 1") 3], Ok200 (response_of (lit "x = 1") [])).
Proof.
  split; [eexists; split; reflexivity|]. split; [lia|].
  split; [eexists; split; reflexivity|]. split; [lia|reflexivity].
Qed.

(** ** The declared language *)

(** C8, as the code has it. The handler of /explain never looks at the
    declared language: its answer and its events are the same for any
    language, and there is no unsupported-language error. The six
    languages are only the options of the select box of the front end,
    which therefore always sends one of them. *)
Theorem language_not_checked :
  (forall env req l, explain env (with_language l req) = explain env req) /\
  (forall f : App.Form,
      In (raw_language (App.payload f)) supported_languages).
Proof.
  split.
  - intros env req l. reflexivity.
  - intros f. unfold App.payload; simpl.
    destruct (App.lang f); vm_compute; tauto.
Qed.

(** C8 fails as stated: a request that declares rust, which is not among
    the six, is answered with a 200 and the video search is called. *)
Lemma unsupported_language_accepted :
  ~ In (lit "rust") supported_languages /\
  post_explain env_unconfigured
    (mkRawRequest (lit "x = 1") (lit "rust") (lit "beginner") Absent) =
  ([SearchCalled (lit "x = 1") 3], Ok200 (response_of (lit "x = 1") [])).
Proof.
  split; [|reflexivity].
  vm_compute. intros H.
  repeat (destruct H as [H|H]; [discriminate H|]). exact H.
Qed.

(** ** Video identifiers *)

Lemma video_url_full (id : str) :
  startswith id (lit "http") = true -> App.video_url id = id.
Proof. intros H. unfold App.video_url. now rewrite H. Qed.

Lemma video_url_bare (id : str) :
  startswith id (lit "http") = false ->
  App.video_url id = watch_prefix ++ id.
Proof. intros H. unfold App.video_url. now rewrite H. Qed.

Lemma watch_url_full (id : str) :
  startswith (watch_prefix ++ id) (lit "http") = true.
Proof. reflexivity. Qed.








(** * Further properties of the code *)

(** ** Sequencing *)

Lemma result_bind {E A B} (m : M E A) (k : A -> M E B) :
  result (bind m k) =
  match result m with
  | Returned a => result (k a)
  | Raised e => Raised e
  end.
Proof.
  destruct m as [t [a|e]]; unfold result; simpl; [|reflexivity].
  now destruct (k a).
Qed.

Lemma trace_bind {E A B} (m : M E A) (k : A -> M E B) :
  trace (bind m k) =
  match result m with
  | Returned a => trace m ++ trace (k a)
  | Raised e => trace m
  end.
Proof.
  destruct m as [t [a|e]]; unfold trace, result; simpl; [|reflexivity].
  now destruct (k a).
Qed.

Lemma bind_ret_l {E A B} (a : A) (k : A -> M E B) : bind (ret a) k = k a.
Proof. unfold bind, ret. now destruct (k a). Qed.

Lemma bind_raise_l {E A B} (e : exn) (k : A -> M E B) :
  bind (raise e) k = raise e.
Proof. reflexivity. Qed.

Lemma bind_assoc {E A B C} (m : M E A) (k : A -> M E B) (h : B -> M E C) :
  bind (bind m k) h = bind m (fun a => bind (k a) h).
Proof.
  destruct m as [t [a|e]]; simpl; [|reflexivity].
  destruct (k a) as [t' [b|e]]; simpl; [|reflexivity].
  destruct (h b) as [t'' r]. now rewrite app_assoc.
Qed.

Lemma outcome_eta {E A} (m : M E A) : m = (trace m, result m).
Proof. now destruct m. Qed.

Lemma bind_ext {E A B} (m : M E A) (k k' : A -> M E B) :
  (forall a, k a = k' a) -> bind m k = bind m k'.
Proof.
  intros H. destruct m as [t [a|e]]; simpl; [|reflexivity]. now rewrite H.
Qed.

(** A loop over two lists in a row is the two loops in a row. *)
Lemma for_each_app {E A B} (body : B -> A -> M E B) (xs ys : list A)
    (acc : B) :
  for_each (xs ++ ys) body acc =
  bind (for_each xs body acc) (for_each ys body).
Proof.
  revert acc; induction xs as [|x xs IH]; intros acc.
  - symmetry. apply bind_ret_l.
  - cbn [for_each app]. rewrite bind_assoc. apply bind_ext. exact IH.
Qed.

(** ** The video search on the responses of the API *)

Section Search.

Variable env : Env.

Lemma video_entry_ok (videos : list pyval) (item title video_id : pyval) :
  item_has item title video_id ->
  video_entry env videos item =
  ([], Returned (videos ++ [video_dict env title video_id])).
Proof.
  intros (kvs & snippet & ids & -> & Hsn & Ht & Hid & Hv).
  unfold video_entry, py_item.
  rewrite Hsn. run. rewrite Ht. run. rewrite Hid. run. rewrite Hv.
  reflexivity.
Qed.

(** An item either has the two paths or makes the loop body raise. *)
Lemma video_entry_cases (item : pyval) :
  (exists title video_id, item_has item title video_id) \/
  (exists e, forall videos, video_entry env videos item = ([], Raised e)).
Proof.
  destruct item as [| | | |xs|kvs];
    try (right; exists TypeError; intros; reflexivity).
  destruct (lookup (lit "snippet") kvs) as [sn|] eqn:Hsn.
  2:{ right. exists (KeyError (lit "snippet")). intros.
      unfold video_entry, py_item. now rewrite Hsn. }
  assert (Hsn' : (exists snippet, sn = VDict snippet) \/
                 forall videos,
                   video_entry env videos (VDict kvs) = ([], Raised TypeError)).
  { destruct sn; try (right; intros; unfold video_entry, py_item;
                      rewrite Hsn; reflexivity).
    left. eexists; reflexivity. }
  destruct Hsn' as [[snippet ->]|Hbad]; [|right; eexists; exact Hbad].
  destruct (lookup (lit "title") snippet) as [title|] eqn:Ht.
  2:{ right. exists (KeyError (lit "title")). intros.
      unfold video_entry, py_item. rewrite Hsn. run. now rewrite Ht. }
  destruct (lookup (lit "id") kvs) as [idv|] eqn:Hid.
  2:{ right. exists (KeyError (lit "id")). intros.
      unfold video_entry, py_item. rewrite Hsn. run. rewrite Ht. run.
      now rewrite Hid. }
  assert (Hid' : (exists ids, idv = VDict ids) \/
                 forall videos,
                   video_entry env videos (VDict kvs) = ([], Raised TypeError)).
  { destruct idv; try (right; intros; unfold video_entry, py_item;
                       rewrite Hsn; run; rewrite Ht; run; rewrite Hid;
                       reflexivity).
    left. eexists; reflexivity. }
  destruct Hid' as [[ids ->]|Hbad]; [|right; eexists; exact Hbad].
  destruct (lookup (lit "videoId") ids) as [video_id|] eqn:Hv.
  2:{ right. exists (KeyError (lit "videoId")). intros.
      unfold video_entry, py_item. rewrite Hsn. run. rewrite Ht. run.
      rewrite Hid. run. now rewrite Hv. }
  left. exists title, video_id, kvs, snippet, ids. auto.
Qed.

Lemma for_each_items_ok (items : list pyval) (tvs : list (pyval * pyval)) :
  Forall2 (fun item tv => item_has item (fst tv) (snd tv)) items tvs ->
  forall acc,
    for_each items (video_entry env) acc =
    ([], Returned
           (acc ++ List.map (fun tv => video_dict env (fst tv) (snd tv)) tvs)).
Proof.
  induction 1 as [|item tv items tvs Hi _ IH]; intros acc; simpl.
  - now rewrite app_nil_r.
  - rewrite (video_entry_ok acc item (fst tv) (snd tv) Hi).
    rewrite bind_returned, IH. simpl. now rewrite <- app_assoc.
Qed.

Lemma for_each_items_bad (items : list pyval) :
  Exists (fun item => ~ exists title video_id, item_has item title video_id)
    items ->
  forall acc,
    exists e, for_each items (video_entry env) acc = ([], Raised e).
Proof.
  induction 1 as [item items Hbad|item items _ IH]; intros acc; simpl.
  - destruct (video_entry_cases item) as [Hok|[e He]]; [contradiction|].
    exists e. now rewrite He.
  - destruct (video_entry_cases item) as [(title & vid & Hok)|[e He]].
    + rewrite (video_entry_ok acc item title vid Hok), bind_returned.
      destruct (IH (acc ++ [video_dict env title vid])) as [e He].
      exists e. now rewrite He.
    + exists e. now rewrite He.
Qed.

Lemma extract_videos_items (kvs : list (str * pyval)) (items : list pyval) :
  lookup (lit "items") kvs = Some (VList items) ->
  extract_videos env (VDict kvs) = for_each items (video_entry env) [].
Proof.
  intros H. unfold extract_videos, py_get. rewrite H.
  rewrite bind_ret_l. cbn [py_iter]. now rewrite bind_ret_l.
Qed.

End Search.

(** X1. When the key and the client are there and the API answers with a
    list of items that all have a snippet title and a video id, the search
    returns one dictionary per item, in the order of the items, each with
    the title, the id and the watch address made from the id; it sends one
    request and logs nothing. *)
Theorem youtube_search_well_formed :
  forall env key client query n kvs items tvs,
    YOUTUBE_API_KEY env = Some key -> nonempty key = true ->
    youtube_build env = Some client ->
    client key query n = Returned (VDict kvs) ->
    lookup (lit "items") kvs = Some (VList items) ->
    Forall2 (fun item tv => item_has item (fst tv) (snd tv)) items tvs ->
    youtube_search env query n =
    ([SearchCalled query n; ApiRequest key query n],
     Returned (List.map (fun tv => video_dict env (fst tv) (snd tv)) tvs)).
Proof.
  intros env key client query n kvs items tvs Hk Hne Hb Hc Hi Hok.
  rewrite (youtube_search_with_credentials env key client query n Hk Hne Hb).
  rewrite Hc, (extract_videos_items env kvs items Hi).
  now rewrite (for_each_items_ok env items tvs Hok).
Qed.

(** X2. One item without a snippet title or a video id discards the whole
    result: the search then returns the empty list, whatever the other
    items are, and logs one error. *)
Theorem youtube_search_one_bad_item :
  forall env key client query n kvs items,
    YOUTUBE_API_KEY env = Some key -> nonempty key = true ->
    youtube_build env = Some client ->
    client key query n = Returned (VDict kvs) ->
    lookup (lit "items") kvs = Some (VList items) ->
    Exists (fun item => ~ exists title video_id, item_has item title video_id)
      items ->
    exists e,
      youtube_search env query n =
      ([SearchCalled query n; ApiRequest key query n; search_log e],
       Returned []).
Proof.
  intros env key client query n kvs items Hk Hne Hb Hc Hi Hbad.
  rewrite (youtube_search_with_credentials env key client query n Hk Hne Hb).
  rewrite Hc, (extract_videos_items env kvs items Hi).
  destruct (for_each_items_bad env items Hbad []) as [e ->].
  now exists e.
Qed.

Lemma api_item_has (title video_id : str) :
  item_has (api_item title video_id) (VStr title) (VStr video_id).
Proof. unfold item_has, api_item. eexists _, _, _. repeat split. Qed.

Lemma youtube_search_well_formed_witness :
  youtube_search
    (env_answering [api_item (lit "Loops") (lit "dQw4w9WgXcQ");
                    api_item (lit "Lists") (lit "9bZkp7q19f0")])
    (lit "for x in xs:") 3 =
  ([SearchCalled (lit "for x in xs:") 3;
    ApiRequest (lit "key") (lit "for x in xs:") 3],
   Returned
     [VDict [(lit "title", VStr (lit "Loops"));
             (lit "video_id", VStr (lit "dQw4w9WgXcQ"));
             (lit "url",
              VStr (lit "https://www.youtube.com/watch?v=dQw4w9WgXcQ"))];
      VDict [(lit "title", VStr (lit "Lists"));
             (lit "video_id", VStr (lit "9bZkp7q19f0"));
             (lit "url",
              VStr (lit "https://www.youtube.com/watch?v=9bZkp7q19f0"))]]).
Proof.
  apply (youtube_search_well_formed
           (env_answering [api_item (lit "Loops") (lit "dQw4w9WgXcQ");
                           api_item (lit "Lists") (lit "9bZkp7q19f0")])
           (lit "key") (fun _ _ _ => _) (lit "for x in xs:") 3 _ _
           [(VStr (lit "Loops"), VStr (lit "dQw4w9WgXcQ"));
            (VStr (lit "Lists"), VStr (lit "9bZkp7q19f0"))]
           eq_refl eq_refl eq_refl eq_refl eq_refl).
  repeat constructor; apply api_item_has.
Defined.

Lemma youtube_search_one_bad_item_witness :
  exists e,
    youtube_search
      (env_answering [api_item (lit "Loops") (lit "dQw4w9WgXcQ");
                      VDict [(lit "kind", VStr (lit "youtube#searchResult"))]])
      (lit "for x in xs:") 3 =
    ([SearchCalled (lit "for x in xs:") 3;
      ApiRequest (lit "key") (lit "for x in xs:") 3; search_log e],
     Returned []).
Proof.
  apply (youtube_search_one_bad_item
           (env_answering
              [api_item (lit "Loops") (lit "dQw4w9WgXcQ");
               VDict [(lit "kind", VStr (lit "youtube#searchResult"))]])
           (lit "key") (fun _ _ _ => _) (lit "for x in xs:") 3 _ _
           eq_refl eq_refl eq_refl eq_refl eq_refl).
  apply Exists_cons_tl, Exists_cons_hd.
  intros (title & vid & kvs & snippet & ids & E & Hsn & _).
  injection E as <-. discriminate Hsn.
Defined.

Lemma api_requests_with_credentials (env : Env) (key : str)
    (client : str -> str -> Z -> outcome pyval) (query : str) (n : Z) :
  YOUTUBE_API_KEY env = Some key -> nonempty key = true ->
  youtube_build env = Some client ->
  api_requests (trace (youtube_search env query n)) = [(key, query, n)].
Proof.
  intros Hk Hne Hb.
  rewrite (youtube_search_with_credentials env key client query n Hk Hne Hb).
  destruct (client key query n) as [resp|e]; [|reflexivity].
  now destruct (result (extract_videos env resp)).
Qed.

(** X3. The search contacts the API only when the key is set and the
    client library is there, and then exactly once, with that key and with
    the query and the number of results it was given. *)
Theorem youtube_search_api_requests :
  forall env query n,
    (credentials_absent env ->
     api_requests (trace (youtube_search env query n)) = []) /\
    (forall key client,
        YOUTUBE_API_KEY env = Some key -> nonempty key = true ->
        youtube_build env = Some client ->
        api_requests (trace (youtube_search env query n)) =
        [(key, query, n)]).
Proof.
  intros env query n. split.
  - intros H. now rewrite (youtube_search_no_credentials env query n H).
  - intros key client. apply api_requests_with_credentials.
Qed.

Lemma youtube_search_api_requests_witness :
  api_requests (trace (youtube_search env_unconfigured (lit "x = 1") 3)) = [] /\
  api_requests (trace (youtube_search env_failing (lit "x = 1") 3)) =
  [(lit "key", lit "x = 1", 3)].
Proof.
  split.
  - apply (proj1 (youtube_search_api_requests env_unconfigured
                    (lit "x = 1") 3)).
    left. reflexivity.
  - apply (proj2 (youtube_search_api_requests env_failing (lit "x = 1") 3)
             (lit "key")
             (fun _ _ _ => Raised (ClientError (lit "transport error"))));
      reflexivity.
Defined.

(** X4. A response that is a dictionary without an items key is read as
    one with no items: the search returns the empty list and logs nothing.
    A response that is not a dictionary makes the search log an
    AttributeError and return the empty list. *)
Theorem youtube_search_without_items :
  forall env key client query n resp,
    YOUTUBE_API_KEY env = Some key -> nonempty key = true ->
    youtube_build env = Some client ->
    client key query n = Returned resp ->
    (forall kvs,
        resp = VDict kvs -> lookup (lit "items") kvs = None ->
        youtube_search env query n =
        ([SearchCalled query n; ApiRequest key query n], Returned [])) /\
    ((forall kvs, resp <> VDict kvs) ->
     youtube_search env query n =
     ([SearchCalled query n; ApiRequest key query n;
       search_log AttributeError], Returned [])).
Proof.
  intros env key client query n resp Hk Hne Hb Hc.
  rewrite (youtube_search_with_credentials env key client query n Hk Hne Hb).
  rewrite Hc. split.
  - intros kvs -> Hi. unfold extract_videos, py_get. now rewrite Hi.
  - intros Hnd. destruct resp; try reflexivity.
    exfalso. now apply (Hnd kvs).
Qed.

Lemma youtube_search_without_items_witness :
  youtube_search
    (mkEnv (Some (lit "key")) (Some (fun _ _ _ => Returned (VDict [])))
       (fun _ => []))
    (lit "x = 1") 3 =
  ([SearchCalled (lit "x = 1") 3; ApiRequest (lit "key") (lit "x = 1") 3],
   Returned []) /\
  youtube_search
    (mkEnv (Some (lit "key")) (Some (fun _ _ _ => Returned VNone))
       (fun _ => []))
    (lit "x = 1") 3 =
  ([SearchCalled (lit "x = 1") 3; ApiRequest (lit "key") (lit "x = 1") 3;
    search_log AttributeError], Returned []).
Proof.
  split.
  - apply (proj1 (youtube_search_without_items
                    (mkEnv (Some (lit "key"))
                       (Some (fun _ _ _ => Returned (VDict [])))
                       (fun _ => []))
                    (lit "key") (fun _ _ _ => _) (lit "x = 1") 3 (VDict [])
                    eq_refl eq_refl eq_refl eq_refl) []); reflexivity.
  - apply (proj2 (youtube_search_without_items
                    (mkEnv (Some (lit "key"))
                       (Some (fun _ _ _ => Returned VNone))
                       (fun _ => []))
                    (lit "key") (fun _ _ _ => _) (lit "x = 1") 3 VNone
                    eq_refl eq_refl eq_refl eq_refl)).
    discriminate.
Defined.

Lemma for_each_items_entries (env : Env) (items acc videos : list pyval) :
  result (for_each items (video_entry env) acc) = Returned videos ->
  exists tvs,
    videos = acc ++ List.map (fun tv => video_dict env (fst tv) (snd tv)) tvs /\
    List.length tvs = List.length items.
Proof.
  revert acc; induction items as [|item items IH]; intros acc; simpl.
  - intros E. injection E as <-. exists []. now rewrite app_nil_r.
  - destruct (video_entry_cases env item) as [(title & vid & Hok)|[e He]].
    + rewrite (video_entry_ok env acc item title vid Hok), bind_returned.
      unfold result; simpl. intros E.
      destruct (IH _ E) as (tvs & -> & Hlen).
      exists ((title, vid) :: tvs). simpl.
      now rewrite <- app_assoc, Hlen.
    + rewrite He. discriminate.
Qed.

Lemma extract_videos_entries (env : Env) (resp : pyval)
    (videos : list pyval) :
  result (extract_videos env resp) = Returned videos ->
  exists tvs,
    videos = List.map (fun tv => video_dict env (fst tv) (snd tv)) tvs.
Proof.
  unfold extract_videos. rewrite result_bind.
  destruct (result (py_get resp (lit "items") (VList []))) as [items|e];
    [|discriminate].
  rewrite result_bind.
  destruct (result (py_iter items)) as [its|e]; [|discriminate].
  intros H. destruct (for_each_items_entries env its [] videos H)
    as (tvs & -> & _).
  now exists tvs.
Qed.

(** X5. Whatever the API answers, every video the search returns is a
    dictionary with exactly the keys title, video_id and url, in which the
    url is the watch prefix followed by the video id. *)
Theorem youtube_search_entries :
  forall env query n videos,
    result (youtube_search env query n) = Returned videos ->
    Forall (fun v => exists title video_id,
                v = VDict [(lit "title", title);
                           (lit "video_id", video_id);
                           (lit "url",
                            VStr (lit "https://www.youtube.com/watch?v=" ++
                                  format_value (render env) video_id))])
      videos.
Proof.
  intros env query n videos.
  assert (Hnil : result (youtube_search env query n) = Returned [] ->
                 result (youtube_search env query n) = Returned videos ->
                 videos = []) by congruence.
  destruct (YOUTUBE_API_KEY env) as [key|] eqn:Hk.
  2:{ intros H. rewrite Hnil; [constructor| |exact H].
      rewrite youtube_search_no_credentials; [reflexivity|].
      left. now rewrite Hk. }
  destruct (nonempty key) eqn:Hne.
  2:{ intros H. rewrite Hnil; [constructor| |exact H].
      rewrite youtube_search_no_credentials; [reflexivity|].
      left. now rewrite Hk. }
  destruct (youtube_build env) as [client|] eqn:Hb.
  2:{ intros H. rewrite Hnil; [constructor| |exact H].
      rewrite youtube_search_no_credentials; [reflexivity|]. now right. }
  clear Hnil.
  rewrite (youtube_search_with_credentials env key client query n Hk Hne Hb).
  destruct (client key query n) as [resp|e].
  2:{ intros E. injection E as <-. constructor. }
  destruct (result (extract_videos env resp)) as [vs|e] eqn:Hx.
  2:{ intros E. injection E as <-. constructor. }
  intros E. injection E as <-.
  destruct (extract_videos_entries env resp vs Hx) as [tvs ->].
  apply Forall_forall. intros v Hv. apply in_map_iff in Hv as ([t i] & <- & _).
  exists t, i. reflexivity.
Qed.

Lemma youtube_search_entries_witness :
  Forall (fun v => exists title video_id,
              v = VDict [(lit "title", title);
                         (lit "video_id", video_id);
                         (lit "url",
                          VStr (lit "https://www.youtube.com/watch?v=" ++
                                format_value (fun _ => []) video_id))])
    [VDict [(lit "title", VStr (lit "Loops"));
            (lit "video_id", VStr (lit "dQw4w9WgXcQ"));
            (lit "url",
             VStr (lit "https://www.youtube.com/watch?v=dQw4w9WgXcQ"))]].
Proof.
  apply (youtube_search_entries
           (env_answering [api_item (lit "Loops") (lit "dQw4w9WgXcQ")])
           (lit "x = 1") 3).
  reflexivity.
Defined.

(** ** The outcomes of [explain] *)

Lemma linebreak_is_space (c : char) :
  is_linebreak c = true -> is_space c = true.
Proof.
  unfold is_linebreak. intros H. apply existsb_exists in H as (b & Hb & E).
  apply N.eqb_eq in E; subst b.
  unfold line_boundaries in Hb.
  repeat (destruct Hb as [<-|Hb]; [reflexivity|]). contradiction.
Qed.

Lemma not_blank_has_line (src : str) :
  ~ blank src -> exists l, In l (splitlines src) /\ ~ blank l.
Proof.
  intros Hnb.
  assert (Hex : Exists (fun c => is_space c <> true) src).
  { apply neg_Forall_Exists_neg; [|exact Hnb].
    intros c. destruct (is_space c); [left|right]; congruence. }
  apply Exists_exists in Hex as (c & Hc & Hsp).
  assert (Hlb : is_linebreak c = false).
  { destruct (is_linebreak c) eqn:E; [|reflexivity].
    now apply linebreak_is_space in E. }
  assert (Hin : In c (List.concat (splitlines src))).
  { rewrite splitlines_concat. apply filter_In. split; [exact Hc|].
    now rewrite Hlb. }
  apply in_concat in Hin as (l & Hl & Hcl).
  exists l. split; [exact Hl|]. intros B.
  unfold blank in B. rewrite Forall_forall in B. now apply Hsp, B.
Qed.

Lemma not_blank_explain_lines (src : str) :
  ~ blank src -> explain_lines src <> [].
Proof.
  intros Hnb E. destruct (not_blank_has_line src Hnb) as (l & Hl & Hbl).
  apply (f_equal (@List.length _)) in E. rewrite explain_lines_length in E.
  apply length_zero_iff_nil in E.
  assert (Hin : In l (filter (fun l => nonempty (strip l)) (splitlines src))).
  { apply filter_In. split; [exact Hl|]. now apply strip_truthy_iff. }
  now rewrite E in Hin.
Qed.

(** X6. The loop of [explain] produces no line explanation exactly when the
    source is empty or whitespace-only: a source with any other character
    has a line that is explained. *)
Theorem no_explanations_iff_blank :
  forall src : str, explain_lines src = [] <-> blank src.
Proof.
  intros src. split; [|apply blank_explain_lines].
  intros E. destruct (nonempty (strip src)) eqn:Hs.
  - apply strip_truthy_iff in Hs. now apply not_blank_explain_lines in Hs.
  - now apply strip_falsy_iff_blank.
Qed.

(** X7. For every body that passes the validation of the request model
    (the only bodies that reach the handler, and the only ones a
    [RawRequest] stands for), the handler answers 200 exactly when the
    request has options and either does not ask for videos or has a source
    that is not empty; for every other such body (options null, or videos
    asked for an empty source) it answers 500 with the detail Internal
    server error and one log entry, for an AttributeError or an
    IndexError. *)
Theorem post_explain_outcomes :
  forall env body,
    (servable (parse_request body) = true ->
     exists t videos,
       post_explain env body = (t, Ok200 (response_of (raw_code body) videos))) /\
    (servable (parse_request body) = false ->
     exists e,
       (e = AttributeError \/ e = IndexError) /\
       post_explain env body =
       ([LogException (lit "Error in /explain: %s") e],
        ErrorResponse 500 (lit "Internal server error"))).
Proof.
  intros env body. unfold post_explain, servable.
  destruct (Request.options (parse_request body)) as [o|] eqn:Ho.
  2:{ rewrite (explain_without_options env _ Ho).
      split; [discriminate|]. intros _. exists AttributeError. auto. }
  destruct (flag (include_youtube o)) eqn:Hf; simpl.
  - destruct (splitlines (raw_code body)) as [|first rest] eqn:Hs.
    + rewrite (explain_empty_source env (parse_request body) o Ho Hf Hs).
      apply splitlines_empty_iff in Hs. rewrite Hs.
      split; [discriminate|]. intros _. exists IndexError. auto.
    + destruct (explain_videos_on env (parse_request body) o first rest
                  Ho Hf Hs) as (t & videos & _ & ->).
      split; [intros _; now exists t, videos|].
      destruct (raw_code body); [discriminate Hs|discriminate].
  - rewrite (explain_videos_off env (parse_request body) o Ho Hf).
    split; [intros _; now exists [], []|discriminate].
Qed.

Lemma post_explain_outcomes_witness :
  (exists t videos,
      post_explain env_unconfigured (body_for hi_bye Absent) =
      (t, Ok200 (response_of hi_bye videos))) /\
  (exists e,
      (e = AttributeError \/ e = IndexError) /\
      post_explain env_unconfigured (body_for hi_bye Null) =
      ([LogException (lit "Error in /explain: %s") e],
       ErrorResponse 500 (lit "Internal server error"))).
Proof.
  split.
  - apply (proj1 (post_explain_outcomes env_unconfigured
                    (body_for hi_bye Absent))).
    reflexivity.
  - apply (proj2 (post_explain_outcomes env_unconfigured
                    (body_for hi_bye Null))).
    reflexivity.
Defined.

Lemma enumerate_bound {A : Type} (xs : list A) (start i : Z) (x : A) :
  In (i, x) (enumerate start xs) ->
  start <= i < start + Z.of_nat (List.length xs).
Proof.
  intros H. apply In_enumerate in H as [Hle Hn]. split; [exact Hle|].
  assert (Hlt : (Z.to_nat (i - start) < List.length xs)%nat)
    by (apply nth_error_Some; congruence).
  lia.
Qed.

(** X8. In every response of [explain] the summary counts the line
    explanations of the response, there is exactly one explanation per
    non-blank line of the source, and each explanation carries a line
    number between 1 and the number of lines and the mock text for that
    number. *)
Theorem response_consistent :
  forall env req resp,
    result (explain env req) = Returned resp ->
    exists ls,
      lines resp = Some ls /\
      summary resp =
        Some (lit "Explained " ++ of_int (Z.of_nat (List.length ls)) ++
              lit " lines.") /\
      List.length ls =
        List.length (filter (fun l => nonempty (strip l))
                       (splitlines (Request.code req))) /\
      Forall (fun e =>
                1 <= line_number e <=
                  Z.of_nat (List.length (splitlines (Request.code req))) /\
                explanation e =
                  lit "Mock explanation for line " ++ of_int (line_number e))
        ls.
Proof.
  intros env req resp Hr.
  destruct (explain_returned env req resp Hr) as [videos ->].
  exists (explain_lines (Request.code req)).
  split; [reflexivity|]. split; [reflexivity|].
  split; [apply explain_lines_length|].
  rewrite explain_lines_eq. apply Forall_forall. intros e He.
  apply in_map_iff in He as ([i l] & <- & Hin).
  apply filter_In in Hin as [Hin _].
  apply enumerate_bound in Hin. simpl. split; [lia|reflexivity].
Qed.

Lemma response_consistent_witness :
  exists ls,
    lines (response_of hi_bye []) = Some ls /\
    summary (response_of hi_bye []) = Some (lit "Explained 2 lines.") /\
    List.length ls = 2%nat.
Proof.
  destruct (response_consistent env_unconfigured
              (request_for hi_bye (Some default_options))
              (response_of hi_bye []) eq_refl) as (ls & Hl & Hs & Hn & _).
  exists ls. split; [exact Hl|]. split; [|exact Hn].
  rewrite Hs. injection Hl as <-. reflexivity.
Defined.

(** X9. The handler sends at most one request to the video API, and only
    with the configured key, for 3 results, and with a query that is the
    first line of the source cut to at most 50 characters. *)
Theorem explain_api_requests :
  forall env req,
    (List.length (api_requests (trace (explain env req))) <= 1)%nat /\
    (forall key query n,
        In (key, query, n) (api_requests (trace (explain env req))) ->
        YOUTUBE_API_KEY env = Some key /\ n = 3 /\
        (List.length query <= 50)%nat /\
        exists first rest,
          splitlines (Request.code req) = first :: rest /\
          query = firstn 50 first).
Proof.
  intros env req.
  destruct (Request.options req) as [o|] eqn:Ho.
  2:{ rewrite (explain_without_options env req Ho). simpl.
      split; [lia|contradiction]. }
  destruct (flag (include_youtube o)) eqn:Hf.
  2:{ rewrite (explain_videos_off env req o Ho Hf). simpl.
      split; [lia|contradiction]. }
  destruct (splitlines (Request.code req)) as [|first rest] eqn:Hs.
  { rewrite (explain_empty_source env req o Ho Hf Hs). simpl.
    split; [lia|contradiction]. }
  destruct (explain_videos_on env req o first rest Ho Hf Hs)
    as (t & videos & Hy & ->).
  assert (Ht : t = trace (youtube_search env (slice_to 50 first) 3))
    by now rewrite Hy.
  unfold trace at 1 2; simpl fst. rewrite Ht.
  assert (Hcases :
            api_requests (trace (youtube_search env (slice_to 50 first) 3)) = []
            \/ exists key,
                YOUTUBE_API_KEY env = Some key /\
                api_requests
                  (trace (youtube_search env (slice_to 50 first) 3)) =
                [(key, slice_to 50 first, 3)]).
  { destruct (YOUTUBE_API_KEY env) as [key|] eqn:Hk.
    2:{ left. rewrite youtube_search_no_credentials; [reflexivity|].
        left. now rewrite Hk. }
    destruct (nonempty key) eqn:Hne.
    2:{ left. rewrite youtube_search_no_credentials; [reflexivity|].
        left. now rewrite Hk. }
    destruct (youtube_build env) as [client|] eqn:Hb.
    2:{ left. rewrite youtube_search_no_credentials; [reflexivity|].
        now right. }
    right. exists key. split; [reflexivity|].
    now apply (api_requests_with_credentials env key client). }
  destruct Hcases as [->|(key & Hk & ->)].
  - split; [simpl; lia|contradiction].
  - split; [cbn [List.length]; lia|]. intros k q n [E|[]].
    injection E as <- <- <-.
    split; [exact Hk|]. split; [reflexivity|].
    split.
    { change (List.length (firstn 50 first) <= 50)%nat.
      rewrite length_firstn. lia. }
    now exists first, rest.
Qed.

Lemma explain_api_requests_witness :
  YOUTUBE_API_KEY env_failing = Some (lit "key") /\
  (List.length (lit "print('hi')") <= 50)%nat.
Proof.
  destruct (proj2 (explain_api_requests env_failing
                     (request_for hi_bye (Some default_options)))
              (lit "key") (lit "print('hi')") 3) as (Hk & _ & Hl & _).
  - left. reflexivity.
  - split; [exact Hk|exact Hl].
Defined.

(** X10. The answer of [explain], and what it logs and sends, depend on the
    request only through its source and through whether videos are asked
    for: the language, the user level, safe_run and max_tokens are never
    read. *)
Theorem explain_reads_source_and_flag :
  forall env req req',
    Request.code req = Request.code req' ->
    option_map (fun o => flag (include_youtube o)) (Request.options req) =
    option_map (fun o => flag (include_youtube o)) (Request.options req') ->
    explain env req = explain env req'.
Proof.
  intros env req req' Hc Ho.
  destruct (Request.options req) as [o|] eqn:H1;
    destruct (Request.options req') as [o'|] eqn:H2;
    try discriminate Ho.
  2:{ now rewrite (explain_without_options env req H1),
        (explain_without_options env req' H2). }
  simpl in Ho. injection Ho as Hfl.
  destruct (flag (include_youtube o)) eqn:Hf; symmetry in Hfl.
  2:{ rewrite (explain_videos_off env req o H1 Hf),
        (explain_videos_off env req' o' H2 Hfl). now rewrite Hc. }
  destruct (splitlines (Request.code req)) as [|first rest] eqn:Hs.
  { rewrite (explain_empty_source env req o H1 Hf Hs).
    rewrite Hc in Hs.
    now rewrite (explain_empty_source env req' o' H2 Hfl Hs). }
  destruct (explain_videos_on env req o first rest H1 Hf Hs)
    as (t & videos & Hy & ->).
  rewrite Hc in Hs.
  destruct (explain_videos_on env req' o' first rest H2 Hfl Hs)
    as (t' & videos' & Hy' & ->).
  rewrite Hy in Hy'. injection Hy' as <- <-. now rewrite Hc.
Qed.

Lemma explain_reads_source_and_flag_witness :
  explain env_failing
    (Request.mk hi_bye (lit "go") (lit "advanced")
       (Some (mkOptions (Some true) (Some true) (Some 7)))) =
  explain env_failing (request_for hi_bye (Some default_options)).
Proof.
  apply (explain_reads_source_and_flag env_failing
           (Request.mk hi_bye (lit "go") (lit "advanced")
              (Some (mkOptions (Some true) (Some true) (Some 7))))
           (request_for hi_bye (Some default_options)));
    reflexivity.
Defined.

(** ** The front end and the backend together *)

(** X11. When the Explain button is pressed on a source that is not blank,
    the front end sends the source unchanged to /explain with the options
    of the form, and the backend answers that request with a 200 (never the
    500) whose response has at least one line explanation. *)
Theorem frontend_request_is_served :
  forall env f,
    App.explain_btn f = true ->
    ~ blank (App.source f) ->
    In (App.PostJson (lit "/explain") (App.payload f)) (App.actions f) /\
    raw_code (App.payload f) = App.source f /\
    (exists t videos,
        post_explain env (App.payload f) =
        (t, Ok200 (response_of (App.source f) videos))) /\
    explain_lines (App.source f) <> [].
Proof.
  intros env f Hbtn Hnb.
  assert (Hs : nonempty (strip (App.source f)) = true)
    by now apply strip_truthy_iff.
  assert (Hne : nonempty (App.source f) = true).
  { destruct (App.source f); [|reflexivity].
    exfalso. apply Hnb. constructor. }
  split.
  { unfold App.actions. rewrite Hbtn, Hs, Hne. simpl. now left. }
  split; [reflexivity|].
  split; [|now apply not_blank_explain_lines].
  unfold post_explain.
  destruct (App.include_youtube f) eqn:Hy.
  - destruct (splitlines (App.source f)) as [|first rest] eqn:Hl.
    { apply splitlines_empty_iff in Hl. rewrite Hl in Hne. discriminate. }
    destruct (explain_videos_on env (parse_request (App.payload f))
                (parse_options
                   (mkRawOptions (Given (App.safe_run f))
                      (Given (App.include_youtube f))
                      (Given (App.max_tokens f))))
                first rest) as (t & videos & _ & ->).
    + reflexivity.
    + simpl. now rewrite Hy.
    + exact Hl.
    + now exists t, videos.
  - rewrite (explain_videos_off env (parse_request (App.payload f))
               (parse_options
                  (mkRawOptions (Given (App.safe_run f))
                     (Given (App.include_youtube f))
                     (Given (App.max_tokens f))))).
    + now exists [], [].
    + reflexivity.
    + simpl. now rewrite Hy.
Qed.

Lemma frontend_request_is_served_witness :
  In (App.PostJson (lit "/explain")
        (App.payload
           (App.mkForm App.python App.Beginner hi_bye None
              true false false false true 1024)))
     (App.actions
        (App.mkForm App.python App.Beginner hi_bye None
           true false false false true 1024)) /\
  explain_lines hi_bye <> [].
Proof.
  destruct (frontend_request_is_served env_unconfigured
              (App.mkForm App.python App.Beginner hi_bye None
                 true false false false true 1024) eq_refl)
    as (Hin & _ & _ & Hl).
  - intros B. apply strip_falsy_iff_blank in B. discriminate B.
  - split; [exact Hin|exact Hl].
Defined.

(** ** The list of videos in the front end *)

Section VideoList.

Variable render : pyval -> str.

Lemma display_chosen (title id : pyval) :
  (if negb (truthy id) then ret tt
   else
     url <- match id with
            | VStr s => ret (App.video_url s)
            | _ => raise AttributeError
            end ;;
     emit (App.StMarkdown
             (lit "**" ++ format_value render title ++ lit "**")) ;;
     emit (App.StVideo url)) =
  if truthy id then
    match id with
    | VStr s => (shown_video render title (App.video_url s), Returned tt)
    | _ => ([], Raised AttributeError)
    end
  else ([], Returned tt).
Proof.
  destruct (truthy id) eqn:H; [|reflexivity].
  cbn [negb]. now destruct id.
Qed.

(** One round of the loop on a dictionary, by the identifier it picks. *)
Lemma display_video_dict (kvs : list (str * pyval)) :
  App.display_video render (VDict kvs) =
  if truthy (chosen_identifier kvs) then
    match chosen_identifier kvs with
    | VStr s =>
        (shown_video render
           (match lookup (lit "title") kvs with
            | Some title => title
            | None => VStr (lit "YouTube video")
            end) (App.video_url s), Returned tt)
    | _ => ([], Raised AttributeError)
    end
  else ([], Returned tt).
Proof.
  rewrite <- display_chosen.
  unfold App.display_video, chosen_identifier, py_get.
  fold (get_or_none (lit "video_id") kvs).
  fold (get_or_none (lit "id") kvs).
  fold (get_or_none (lit "url") kvs).
  rewrite !(@bind_ret_l App.ui pyval unit).
  destruct (truthy (get_or_none (lit "video_id") kvs));
    [now rewrite (@bind_ret_l App.ui pyval unit)|].
  rewrite (@bind_ret_l App.ui pyval pyval).
  destruct (truthy (get_or_none (lit "id") kvs));
    now rewrite (@bind_ret_l App.ui pyval unit).
Qed.

Lemma display_video_not_dict (v : pyval) :
  (forall kvs, v <> VDict kvs) ->
  App.display_video render v = ([], Raised AttributeError).
Proof.
  intros H. destruct v; try reflexivity. exfalso. now apply (H kvs).
Qed.

Lemma display_list_cons (v : pyval) (videos : list pyval) :
  App.display_youtube_list render (v :: videos) =
  bind (App.display_video render v)
       (fun _ => App.display_youtube_list render videos).
Proof.
  unfold App.display_youtube_list. cbn [for_each].
  apply bind_ext. now intros [].
Qed.

Lemma display_list_app (xs ys : list pyval) :
  App.display_youtube_list render (xs ++ ys) =
  bind (App.display_youtube_list render xs)
       (fun _ => App.display_youtube_list render ys).
Proof.
  unfold App.display_youtube_list. rewrite for_each_app.
  apply bind_ext. now intros [].
Qed.

Lemma video_url_is_url (id : str) :
  startswith (App.video_url id) (lit "http") = true.
Proof.
  destruct (startswith id (lit "http")) eqn:H.
  - now rewrite (video_url_full id H).
  - rewrite (video_url_bare id H). apply watch_url_full.
Qed.

End VideoList.

Lemma display_backend_video (env : Env) (render : pyval -> str)
    (title : pyval) (id : str) :
  App.display_video render (video_dict env title (VStr id)) =
  (shown_video render title (App.video_url id), Returned tt).
Proof.
  unfold video_dict. rewrite display_video_dict.
  destruct id as [|c id]; reflexivity.
Qed.

(** X12. The front end plays the videos of the backend one by one, in
    order, each under its title: for a video whose id is text it plays the
    address the backend put in url, unless the id itself starts with http,
    in which case the id is played as it stands. *)
Theorem backend_videos_are_played :
  forall env render (videos : list (pyval * str)),
    App.display_youtube_list render
      (List.map (fun ti => video_dict env (fst ti) (VStr (snd ti))) videos) =
    (flat_map (fun ti => shown_video render (fst ti)
                           (App.video_url (snd ti))) videos,
     Returned tt) /\
    (Forall (fun ti => startswith (snd ti) (lit "http") = false) videos ->
     played
       (trace
          (App.display_youtube_list render
             (List.map (fun ti => video_dict env (fst ti) (VStr (snd ti)))
                videos))) =
     List.map (fun ti => lit "https://www.youtube.com/watch?v=" ++ snd ti)
       videos).
Proof.
  intros env render videos.
  assert (H : App.display_youtube_list render
                (List.map (fun ti => video_dict env (fst ti) (VStr (snd ti)))
                   videos) =
              (flat_map (fun ti => shown_video render (fst ti)
                                     (App.video_url (snd ti))) videos,
               Returned tt)).
  { induction videos as [|[title id] videos IH]; [reflexivity|].
    cbn [List.map flat_map fst snd].
    rewrite display_list_cons, display_backend_video, IH. reflexivity. }
  split; [exact H|]. intros Hbare. rewrite H. unfold trace; cbn [fst].
  clear H. induction Hbare as [|[title id] videos Hid _ IH]; [reflexivity|].
  cbn [flat_map List.map fst snd] in *. unfold shown_video at 1.
  cbn [app played]. rewrite IH. now rewrite (video_url_bare id Hid).
Qed.

Lemma backend_videos_are_played_witness :
  played
    (trace
       (App.display_youtube_list (fun _ => [])
          [video_dict env_unconfigured (VStr (lit "Loops"))
             (VStr (lit "dQw4w9WgXcQ"));
           video_dict env_unconfigured (VStr (lit "Lists")) (VStr [])])) =
  [lit "https://www.youtube.com/watch?v=dQw4w9WgXcQ";
   lit "https://www.youtube.com/watch?v="].
Proof.
  apply (proj2 (backend_videos_are_played env_unconfigured (fun _ => [])
                  [(VStr (lit "Loops"), lit "dQw4w9WgXcQ");
                   (VStr (lit "Lists"), [])])).
  repeat constructor.
Defined.

Lemma display_video_outcomes (render : pyval -> str) (v : pyval) :
  App.display_video render v = ([], Returned tt) \/
  App.display_video render v = ([], Raised AttributeError) \/
  exists title s,
    App.display_video render v =
    (shown_video render title (App.video_url s), Returned tt).
Proof.
  destruct v as [| | | |xs|kvs]; try (right; left; reflexivity).
  rewrite display_video_dict.
  destruct (truthy (chosen_identifier kvs)); [|now left].
  destruct (chosen_identifier kvs); try (right; left; reflexivity).
  right; right. eexists _, _. reflexivity.
Qed.

Lemma display_list_outcomes (render : pyval -> str) (videos : list pyval) :
  result (App.display_youtube_list render videos) = Returned tt \/
  result (App.display_youtube_list render videos) = Raised AttributeError.
Proof.
  induction videos as [|v videos IH]; [now left|].
  rewrite display_list_cons, result_bind.
  destruct (display_video_outcomes render v) as [->|[->|(t & s0 & ->)]];
    unfold result at 1; cbn [snd]; auto.
Qed.

(** X13. An entry with no identifier (no video_id, id or url, or only
    empty ones) is passed over in silence: the list is shown as if the
    entry were not there. *)
Theorem video_without_identifier_skipped :
  forall render xs ys kvs,
    truthy (chosen_identifier kvs) = false ->
    App.display_youtube_list render (xs ++ VDict kvs :: ys) =
    App.display_youtube_list render (xs ++ ys).
Proof.
  intros render xs ys kvs H.
  rewrite !display_list_app. apply bind_ext. intros _.
  rewrite display_list_cons, display_video_dict, H.
  exact (bind_ret_l tt (fun _ => App.display_youtube_list render ys)).
Qed.

Lemma video_without_identifier_skipped_witness :
  App.display_youtube_list (fun _ => [])
    ([VDict [(lit "video_id", VStr (lit "a"))]] ++
     VDict [(lit "title", VStr (lit "T")); (lit "video_id", VStr [])] ::
     [VDict [(lit "id", VStr (lit "b"))]]) =
  App.display_youtube_list (fun _ => [])
    ([VDict [(lit "video_id", VStr (lit "a"))]] ++
     [VDict [(lit "id", VStr (lit "b"))]]).
Proof.
  apply (video_without_identifier_skipped (fun _ => [])
           [VDict [(lit "video_id", VStr (lit "a"))]]
           [VDict [(lit "id", VStr (lit "b"))]]
           [(lit "title", VStr (lit "T")); (lit "video_id", VStr [])]).
  reflexivity.
Defined.

(** X14. An entry that is not a dictionary, or whose identifier is not
    text, ends the listing with an AttributeError: the entries before it
    are shown as usual and none of the entries after it is shown. *)
Theorem unusable_video_stops_list :
  forall render xs ys v,
    unusable_video v ->
    result (App.display_youtube_list render (xs ++ v :: ys)) =
      Raised AttributeError /\
    trace (App.display_youtube_list render (xs ++ v :: ys)) =
      trace (App.display_youtube_list render xs).
Proof.
  intros render xs ys v Hv.
  assert (Hd : App.display_video render v = ([], Raised AttributeError)).
  { destruct Hv as [Hnd|(kvs & -> & Ht & Hs)].
    - now apply display_video_not_dict.
    - rewrite display_video_dict, Ht.
      destruct (chosen_identifier kvs); try reflexivity.
      exfalso. now apply (Hs s). }
  rewrite display_list_app, result_bind, trace_bind.
  rewrite display_list_cons, Hd.
  destruct (display_list_outcomes render xs) as [->| ->].
  - unfold result, trace at 2; cbn [fst snd bind].
    split; [reflexivity|apply app_nil_r].
  - split; reflexivity.
Qed.

Lemma unusable_video_stops_list_witness :
  result
    (App.display_youtube_list (fun _ => [])
       ([VDict [(lit "video_id", VStr (lit "a"))]] ++
        VDict [(lit "video_id", VInt 42)] ::
        [VDict [(lit "id", VStr (lit "b"))]])) = Raised AttributeError /\
  played
    (trace
       (App.display_youtube_list (fun _ => [])
          ([VDict [(lit "video_id", VStr (lit "a"))]] ++
           VDict [(lit "video_id", VInt 42)] ::
           [VDict [(lit "id", VStr (lit "b"))]]))) =
  [lit "https://www.youtube.com/watch?v=a"].
Proof.
  destruct (unusable_video_stops_list (fun _ => [])
              [VDict [(lit "video_id", VStr (lit "a"))]]
              [VDict [(lit "id", VStr (lit "b"))]]
              (VDict [(lit "video_id", VInt 42)])) as [Hr Ht].
  - right. exists [(lit "video_id", VInt 42)].
    split; [reflexivity|]. split; [reflexivity|]. discriminate.
  - split; [exact Hr|]. rewrite Ht. reflexivity.
Defined.

(** X15. Every address the list hands to [st.video] starts with http,
    and at most one player is shown per entry. *)
Theorem played_addresses_are_urls :
  forall render videos,
    Forall (fun url => startswith url (lit "http") = true)
      (played (trace (App.display_youtube_list render videos))) /\
    (List.length (played (trace (App.display_youtube_list render videos)))
     <= List.length videos)%nat.
Proof.
  intros render videos.
  induction videos as [|v videos [IHu IHn]]; [split; [constructor|simpl; lia]|].
  assert (Hp : played (trace (App.display_youtube_list render (v :: videos))) =
               played (trace (App.display_youtube_list render videos)) \/
               played (trace (App.display_youtube_list render (v :: videos))) =
               [] \/
               exists s,
                 played (trace (App.display_youtube_list render (v :: videos))) =
                 App.video_url s ::
                 played (trace (App.display_youtube_list render videos))).
  { rewrite display_list_cons, trace_bind.
    destruct (display_video_outcomes render v) as [->|[->|(t & s0 & ->)]];
      [left|right; left|right; right; exists s0]; reflexivity. }
  destruct Hp as [->|[->|[s ->]]]; cbn [List.length].
  - split; [exact IHu|lia].
  - split; [constructor|lia].
  - split; [|lia]. constructor; [apply video_url_is_url|exact IHu].
Qed.

(** ** The numbered listing of the code *)

Section Listing.

Lemma digits_no_break (d : Decimal.uint) :
  Forall no_break (lit (NilEmpty.string_of_uint d)).
Proof. induction d; simpl; constructor; auto; reflexivity. Qed.

Lemma of_int_no_break (i : Z) : Forall no_break (of_int i).
Proof.
  unfold of_int, NilZero.string_of_int, NilZero.string_of_uint.
  destruct (Z.to_int i) as [d|d].
  - destruct d; try apply digits_no_break. repeat constructor.
  - change (Forall no_break
              (0x2D%N :: lit (match d with
                              | Decimal.Nil => "0"%string
                              | _ => NilEmpty.string_of_uint d
                              end))).
    constructor; [reflexivity|].
    destruct d; try apply digits_no_break. repeat constructor.
Qed.

Lemma rjust_no_break (width : nat) (s : str) :
  Forall no_break s -> Forall no_break (Front.rjust width s).
Proof.
  intros H. unfold Front.rjust. apply Forall_app. split; [|exact H].
  induction (width - List.length s)%nat; simpl; constructor; auto.
  reflexivity.
Qed.

Lemma numbered_row_no_break (i : Z) (line : str) :
  Forall no_break line -> Forall no_break (Front.numbered_row (i, line)).
Proof.
  intros H. unfold Front.numbered_row. simpl fst; simpl snd.
  apply Forall_app. split; [apply rjust_no_break, of_int_no_break|].
  apply Forall_app. split; [repeat constructor|exact H].
Qed.

Lemma numbered_row_nonempty (il : Z * str) : Front.numbered_row il <> [].
Proof.
  unfold Front.numbered_row. intros E.
  apply app_eq_nil in E as [_ E]. discriminate E.
Qed.

Lemma splitlines_app_lf (r s : str) :
  Forall no_break r -> splitlines (r ++ LF :: s) = r :: splitlines s.
Proof.
  induction 1 as [|c r Hc _ IH]; simpl app.
  - rewrite (splitlines_break LF s eq_refl). now destruct s.
  - rewrite (splitlines_char c _ Hc), IH. reflexivity.
Qed.

Lemma splitlines_one (r : str) :
  Forall no_break r -> r <> [] -> splitlines r = [r].
Proof.
  induction 1 as [|c r Hc Hr IH]; intros Hne; [contradiction|].
  rewrite (splitlines_char c r Hc).
  destruct r as [|d r]; [reflexivity|].
  rewrite IH; [reflexivity|discriminate].
Qed.

(** Joining rows with newlines and splitting the text again gives the
    rows back. *)
Lemma splitlines_join (rows : list str) :
  Forall (fun r => r <> [] /\ Forall no_break r) rows ->
  splitlines (Front.join [LF] rows) = rows.
Proof.
  induction 1 as [|r rows [Hne Hr] Hrows IH]; [reflexivity|].
  cbn [Front.join]. destruct rows as [|r' rows].
  - now apply splitlines_one.
  - change ([LF] ++ Front.join [LF] (r' :: rows))
      with (LF :: Front.join [LF] (r' :: rows)).
    now rewrite (splitlines_app_lf r _ Hr), IH.
Qed.

Lemma nth_error_enumerate {A : Type} (xs : list A) (start : Z) (n : nat) :
  nth_error (enumerate start xs) n =
  option_map (fun x => (start + Z.of_nat n, x)) (nth_error xs n).
Proof.
  revert start n; induction xs as [|x xs IH]; intros start [|n]; simpl;
    try reflexivity.
  - now rewrite Z.add_0_r.
  - rewrite IH. destruct (nth_error xs n); simpl; [|reflexivity].
    do 2 f_equal. lia.
Qed.

Lemma enumerate_length {A : Type} (xs : list A) (start : Z) :
  List.length (enumerate start xs) = List.length xs.
Proof.
  revert start; induction xs as [|x xs IH]; intros start; simpl;
    [reflexivity|now rewrite IH].
Qed.

Lemma listing_rows (code : str) :
  splitlines (Front.numbered_listing code) =
  List.map Front.numbered_row (enumerate 0 (splitlines code)).
Proof.
  unfold Front.numbered_listing. apply splitlines_join.
  apply Forall_forall. intros row Hrow.
  apply in_map_iff in Hrow as ([i line] & <- & Hin).
  split; [apply numbered_row_nonempty|].
  apply numbered_row_no_break.
  apply In_enumerate in Hin as [_ Hn]. apply nth_error_In in Hn.
  pose proof (splitlines_no_boundary code) as Hall.
  rewrite Forall_forall in Hall. exact (Hall line Hn).
Qed.

(** Up to 999 the numbers take at most three columns. *)
Lemma small_numbers_fit :
  forallb (fun n => (List.length (of_int (Z.of_nat n)) <=? 3)%nat)
    (seq 0 1000) = true.
Proof. vm_compute. reflexivity. Qed.

Lemma of_int_width (z : Z) :
  0 <= z < 1000 -> (List.length (of_int z) <= 3)%nat.
Proof.
  intros Hz. pose proof small_numbers_fit as H.
  rewrite forallb_forall in H.
  specialize (H (Z.to_nat z)). rewrite Z2Nat.id in H by lia.
  apply Nat.leb_le, H, in_seq. lia.
Qed.

End Listing.

Lemma listing_row (code : str) (n : nat) (line : str) :
  nth_error (splitlines code) n = Some line ->
  nth_error (splitlines (Front.numbered_listing code)) n =
  Some (Front.rjust 3 (of_int (Z.of_nat n + 1)) ++ lit ": " ++ line).
Proof.
  intros H. rewrite listing_rows, nth_error_map, nth_error_enumerate, H.
  reflexivity.
Qed.

(** X16. The text [show_code_with_lines] displays, split into lines again,
    has exactly one row per line of the code, blank lines included, and
    row n reads: the number n counted from 1, right-aligned in three
    columns, a colon, a space, and the n-th line unchanged. *)
Theorem listing_has_one_row_per_line :
  forall code : str,
    List.length (splitlines (Front.numbered_listing code)) =
      List.length (splitlines code) /\
    (forall n line,
        nth_error (splitlines code) n = Some line ->
        nth_error (splitlines (Front.numbered_listing code)) n =
        Some (Front.rjust 3 (of_int (Z.of_nat n + 1)) ++ lit ": " ++ line)).
Proof.
  intros code. split; [|apply listing_row].
  now rewrite listing_rows, length_map, enumerate_length.
Qed.

Lemma listing_has_one_row_per_line_witness :
  nth_error (splitlines (Front.numbered_listing hi_bye)) 2 =
  Some (lit "  3: print('bye')").
Proof.
  apply (proj2 (listing_has_one_row_per_line hi_bye) 2%nat
           (lit "print('bye')")).
  reflexivity.
Defined.

(** X17. The listing of the front end and the explanations of the backend
    number the lines alike: for every line explanation in a response of
    /explain, the row of the listing at the position line_number is that
    number followed by the code of the explanation. *)
Theorem listing_agrees_with_explanations :
  forall env req resp ls e,
    result (explain env req) = Returned resp ->
    lines resp = Some ls ->
    In e ls ->
    nth_error (splitlines (Front.numbered_listing (Request.code req)))
      (Z.to_nat (line_number e - 1)) =
    Some (Front.rjust 3 (of_int (line_number e)) ++ lit ": " ++ code e).
Proof.
  intros env req resp ls e Hr Hl He.
  destruct (explain_returned env req resp Hr) as [videos ->].
  simpl in Hl. injection Hl as <-.
  assert (Hin : In (line_number e, code e)
                  (numbered_lines (Request.code req))).
  { unfold numbered_lines.
    apply (in_map (fun e => (line_number e, code e))) in He. exact He. }
  apply numbered_lines_spec in Hin as (H1 & Hn & _).
  rewrite (listing_row _ _ _ Hn).
  replace (Z.of_nat (Z.to_nat (line_number e - 1)) + 1)
    with (line_number e) by lia.
  reflexivity.
Qed.

Lemma listing_agrees_with_explanations_witness :
  nth_error (splitlines (Front.numbered_listing hi_bye)) 2 =
  Some (Front.rjust 3 (of_int 3) ++ lit ": " ++ lit "print('bye')").
Proof.
  apply (listing_agrees_with_explanations env_unconfigured
           (request_for hi_bye (Some default_options))
           (response_of hi_bye []) (explain_lines hi_bye)
           (mkExplainLine 3 (lit "print('bye')")
              (lit "Mock explanation for line 3"))).
  - reflexivity.
  - reflexivity.
  - right. left. reflexivity.
Defined.

(** X18. For a source of fewer than 1000 lines every number of the listing
    takes exactly three columns, so that all the lines of the code start
    in the same column. *)
Theorem listing_alignment :
  forall code n line,
    (List.length (splitlines code) < 1000)%nat ->
    nth_error (splitlines code) n = Some line ->
    exists number,
      List.length number = 3%nat /\
      nth_error (splitlines (Front.numbered_listing code)) n =
      Some (number ++ lit ": " ++ line).
Proof.
  intros code n line Hlen Hn.
  exists (Front.rjust 3 (of_int (Z.of_nat n + 1))).
  split; [|now apply listing_row].
  assert (Hlt : (n < List.length (splitlines code))%nat)
    by (apply nth_error_Some; congruence).
  assert (Hw : (List.length (of_int (Z.of_nat n + 1)) <= 3)%nat)
    by (apply of_int_width; lia).
  unfold Front.rjust. rewrite length_app, repeat_length. lia.
Qed.

Lemma listing_alignment_witness :
  exists number,
    List.length number = 3%nat /\
    nth_error (splitlines (Front.numbered_listing hi_bye)) 0 =
    Some (number ++ lit ": " ++ lit "print('hi')").
Proof.
  apply (listing_alignment hi_bye 0 (lit "print('hi')")).
  - simpl. lia.
  - reflexivity.
Defined.

(** ** The request of the front end *)







Lemma post_json_success (net : Front.Net) (endpoint : str)
    (payload : RawRequest) (status : Z) (v : pyval) :
  Front.post net (Front.request_url net endpoint) payload 60 =
    Front.Answered status (Some v) ->
  ~ 400 <= status < 600 ->
  Front.post_json net endpoint payload =
  (request_events net endpoint payload, Returned v).
Proof.
  intros Hp Hs. unfold Front.post_json, Front.TIMEOUT. rewrite Hp.
  assert (E : (400 <=? status) && (status <? 600) = false).
  { destruct (400 <=? status) eqn:E1; [|reflexivity].
    destruct (status <? 600) eqn:E2; [|reflexivity].
    apply Z.leb_le in E1. apply Z.ltb_lt in E2. lia. }
  rewrite E. reflexivity.
Qed.

(** X20. [post_json] never raises and sends exactly one request, with
    the timeout of 60 seconds. It returns the JSON of the answer, showing
    no error, exactly when the answer has a status outside 400..599 and a
    JSON body; in every other case (no answer, a status from 400 to 599, a
    body that is not JSON) it shows one error message and returns None. *)
Theorem post_json_fails_soft :
  forall net endpoint payload,
    (forall status v,
        Front.post net (Front.request_url net endpoint) payload 60 =
          Front.Answered status (Some v) ->
        ~ 400 <= status < 600 ->
        Front.post_json net endpoint payload =
        (request_events net endpoint payload, Returned v)) /\
    ((forall status v,
         Front.post net (Front.request_url net endpoint) payload 60 =
           Front.Answered status (Some v) ->
         400 <= status < 600) ->
     exists text,
       Front.post_json net endpoint payload =
       (request_events net endpoint payload ++
        [Front.StError (lit "Backend request failed: " ++ text)],
        Returned VNone)).
Proof.
  intros net endpoint payload. split.
  - intros status v. apply post_json_success.
  - unfold Front.post_json, Front.TIMEOUT. intros H.
    destruct (Front.post net (Front.request_url net endpoint) payload 60)
      as [text|status [v|]] eqn:Hp.
    + exists text. reflexivity.
    + specialize (H status v eq_refl).
      assert (E : (400 <=? status) && (status <? 600) = true).
      { apply andb_true_intro. split;
          [apply Z.leb_le|apply Z.ltb_lt]; lia. }
      rewrite E. eexists. reflexivity.
    + destruct ((400 <=? status) && (status <? 600));
        eexists; reflexivity.
Qed.

Lemma post_json_fails_soft_witness :
  Front.post_json
    (Front.mkNet (lit "http://localhost:8000")
       (fun _ _ _ => Front.Answered 200 (Some (VDict [])))
       (fun _ _ => []) [])
    (lit "/explain") (body_for hi_bye Absent) =
  ([Front.StSpinner (lit "Contacting backend...");
    Front.HttpPost (lit "http://localhost:8000/explain")
      (body_for hi_bye Absent) 60], Returned (VDict [])) /\
  exists text,
    Front.post_json
      (Front.mkNet (lit "http://localhost:8000")
         (fun _ _ _ => Front.Answered 500 (Some (VDict [])))
         (fun _ _ => lit "500 Server Error") [])
      (lit "/explain") (body_for hi_bye Absent) =
    ([Front.StSpinner (lit "Contacting backend...");
      Front.HttpPost (lit "http://localhost:8000/explain")
        (body_for hi_bye Absent) 60;
      Front.StError (lit "Backend request failed: " ++ text)],
     Returned VNone).
Proof.
  split.
  - apply (proj1 (post_json_fails_soft
                    (Front.mkNet (lit "http://localhost:8000")
                       (fun _ _ _ => Front.Answered 200 (Some (VDict [])))
                       (fun _ _ => []) [])
                    (lit "/explain") (body_for hi_bye Absent))
             200 (VDict [])).
    + reflexivity.
    + lia.
  - apply (proj2 (post_json_fails_soft
                    (Front.mkNet (lit "http://localhost:8000")
                       (fun _ _ _ => Front.Answered 500 (Some (VDict [])))
                       (fun _ _ => lit "500 Server Error") [])
                    (lit "/explain") (body_for hi_bye Absent))).
    intros status v E. injection E as <- _. lia.
Defined.

(** ** The page for an answer of the backend *)

Lemma show_line_json (render : pyval -> str) (lang : str) (e : ExplainLine) :
  line_number e <> 0 -> explanation e <> [] ->
  Front.show_line render lang (line_json e) =
  (line_widgets render lang e, Returned tt).
Proof.
  destruct e as [ln c ex]. simpl. intros Hln Hex.
  unfold Front.show_line, line_json, Front.or_else, Front.line_header,
    line_widgets.
  assert (Ht : negb (ln =? 0) = true).
  { destruct (ln =? 0) eqn:E; [|reflexivity].
    apply Z.eqb_eq in E. contradiction. }
  destruct ex as [|x ex]; [contradiction|].
  simpl py_get. rewrite (@bind_ret_l Front.widget pyval unit).
  cbn [truthy]. rewrite Ht.
  rewrite !(@bind_ret_l Front.widget pyval unit).
  cbn [truthy nonempty]. rewrite Ht.
  rewrite (@bind_ret_l Front.widget pyval unit).
  rewrite (@bind_ret_l Front.widget str unit).
  reflexivity.
Qed.

Lemma show_lines_json (render : pyval -> str) (lang : str)
    (ls : list ExplainLine) :
  Forall (fun e => line_number e <> 0 /\ explanation e <> []) ls ->
  for_each (List.map line_json ls)
    (fun _ item => Front.show_line render lang item) tt =
  (flat_map (line_widgets render lang) ls, Returned tt).
Proof.
  induction 1 as [|e ls [Hn He] _ IH]; [reflexivity|].
  cbn [List.map for_each flat_map].
  rewrite (show_line_json render lang e Hn He), bind_returned.
  cbv beta. now rewrite IH.
Qed.

Lemma explain_lines_shown (src : str) :
  Forall (fun e => line_number e <> 0 /\ explanation e <> [])
    (explain_lines src).
Proof.
  rewrite explain_lines_eq. apply Forall_forall. intros e He.
  apply in_map_iff in He as ([i l] & <- & Hin).
  apply filter_In in Hin as [Hin _]. apply enumerate_bound in Hin.
  simpl. split; [lia|discriminate].
Qed.

Lemma listed_bind_tail (m : M App.ui unit) :
  Front.listed m = (List.map Front.Listed (trace m), result m).
Proof. reflexivity. Qed.

(** The section of the videos, as [show_explanation] computes it from the
    related_videos of the answer. *)
Lemma show_videos (render : pyval -> str) (f : App.Form)
    (videos : list pyval) (kvs : list (str * pyval)) :
  lookup (lit "related_videos") kvs = Some (VList videos) ->
  lookup (lit "videos") kvs = None ->
  (videos <> [] -> App.include_youtube f = true) ->
  (by_related <- py_get (VDict kvs) (lit "related_videos") VNone ;;
   vids <- Front.or_else by_related
             (py_get (VDict kvs) (lit "videos") VNone) ;;
   if App.include_youtube f && truthy vids
   then emit (Front.StMarkdown (lit "---")) ;;
        emit (Front.StSubheader (lit "YouTube resources")) ;;
        videos <- py_iter vids ;;
        Front.listed (App.display_youtube_list render videos)
   else ret tt) = page_videos render videos.
Proof.
  intros H1 H2 Hinc. unfold py_get, Front.or_else. rewrite H1, H2.
  rewrite (@bind_ret_l Front.widget pyval unit).
  destruct videos as [|v videos].
  - cbn [truthy]. rewrite (@bind_ret_l Front.widget pyval unit).
    cbn [truthy]. now rewrite andb_false_r.
  - cbn [truthy]. rewrite (@bind_ret_l Front.widget pyval unit).
    rewrite Hinc by discriminate. cbn [truthy andb py_iter].
    rewrite (@bind_ret_l Front.widget (list pyval) unit).
    reflexivity.
Qed.

(** X21. For an answer of the backend to a source that is not blank, the
    page shows the header, the summary, the numbered listing of the source
    and, for each line explanation in order, an expander headed by the
    line number with the code and the explanation; the fallback text for
    answers without lines is not shown; the section of the videos follows
    only when the answer has videos. *)
Theorem page_for_answer :
  forall render f videos,
    ~ blank (App.source f) ->
    (videos <> [] -> App.include_youtube f = true) ->
    Front.show_explanation render f
      (response_json (response_of (App.source f) videos)) =
    bind (page_top f (explain_summary
                        (List.length (explain_lines (App.source f)))) ++
          flat_map (line_widgets render (App.language_name (App.lang f)))
            (explain_lines (App.source f)), Returned tt)
         (fun _ => page_videos render videos).
Proof.
  intros render f videos Hnb Hinc.
  pose proof (not_blank_explain_lines (App.source f) Hnb) as Hne.
  pose proof (explain_lines_shown (App.source f)) as Hshown.
  unfold Front.show_explanation, response_json, response_of.
  cbn [summary lines related_videos option_json].
  set (kvs := [(lit "summary", _); (lit "lines", _);
               (lit "related_videos", _)]).
  assert (G1 : py_get (E:=Front.widget) (VDict kvs) (lit "summary") VNone =
               ret (VStr (explain_summary
                            (List.length (explain_lines (App.source f))))))
    by reflexivity.
  assert (G2 : py_get (E:=Front.widget) (VDict kvs) (lit "lines") VNone =
               ret (VList (List.map line_json
                             (explain_lines (App.source f)))))
    by reflexivity.
  rewrite G1, G2.
  rewrite (show_videos render f videos kvs eq_refl eq_refl Hinc).
  rewrite (@bind_ret_l Front.widget pyval unit).
  assert (Hs : truthy (VStr (explain_summary
                 (List.length (explain_lines (App.source f))))) = true)
    by reflexivity.
  rewrite Hs.
  rewrite (@bind_ret_l Front.widget pyval unit).
  destruct (explain_lines (App.source f)) as [|e es] eqn:El;
    [contradiction|].
  cbn [List.map].
  change (line_json e :: List.map line_json es)
    with (List.map line_json (e :: es)).
  rewrite (show_lines_json render _ (e :: es) Hshown).
  unfold Front.show_code_with_lines, page_top.
  destruct (page_videos render videos) as [t r].
  reflexivity.
Qed.

Lemma page_for_answer_witness :
  Front.show_explanation (fun _ => lit "n")
    (App.mkForm App.python App.Beginner hi_bye None
       true false false false true 1024)
    (response_json (response_of hi_bye [])) =
  ([Front.StHeader (lit "Line-by-line Explanation");
    Front.StMarkdown (lit "**Summary:**");
    Front.StWrite (VStr (lit "Explained 2 lines."));
    Front.StSubheader (lit "Original code");
    Front.StCode (Front.numbered_listing hi_bye) (lit "python");
    Front.StMarkdown (lit "----");
    Front.StExpander (lit "Line n");
    Front.StMarkdown (lit "```python" ++ [LF] ++ lit "print('hi')" ++ [LF] ++
                      lit "```");
    Front.StWrite (VStr (lit "Mock explanation for line 1"));
    Front.StExpander (lit "Line n");
    Front.StMarkdown (lit "```python" ++ [LF] ++ lit "print('bye')" ++ [LF] ++
                      lit "```");
    Front.StWrite (VStr (lit "Mock explanation for line 3"))],
   Returned tt).
Proof.
  refine (page_for_answer (fun _ => lit "n")
            (App.mkForm App.python App.Beginner hi_bye None
               true false false false true 1024) [] _ _).
  - intros B. apply strip_falsy_iff_blank in B. discriminate B.
  - intros H. now contradiction H.
Defined.

Lemma payload_answer (env : Env) (f : App.Form) :
  ~ blank (App.source f) ->
  exists t videos,
    post_explain env (App.payload f) =
      (t, Ok200 (response_of (App.source f) videos)) /\
    (videos <> [] -> App.include_youtube f = true).
Proof.
  intros Hnb. unfold post_explain.
  set (o := parse_options
              (mkRawOptions (Given (App.safe_run f))
                 (Given (App.include_youtube f))
                 (Given (App.max_tokens f)))).
  assert (Ho : Request.options (parse_request (App.payload f)) = Some o)
    by reflexivity.
  destruct (App.include_youtube f) eqn:Hy.
  - destruct (splitlines (App.source f)) as [|first rest] eqn:Hl.
    { apply splitlines_empty_iff in Hl. exfalso. apply Hnb.
      rewrite Hl. constructor. }
    destruct (explain_videos_on env (parse_request (App.payload f)) o
                first rest Ho) as (t & videos & _ & ->).
    + reflexivity.
    + exact Hl.
    + exists t, videos. split; [reflexivity|auto].
  - rewrite (explain_videos_off env (parse_request (App.payload f)) o Ho).
    + exists [], []. split; [reflexivity|]. intros H. now contradiction H.
    + reflexivity.
Qed.

(** X22. The front end and the backend together: for a source that is not
    blank, the Explain action posts the form to /explain of the configured
    backend, shows no error, and shows the page for the answer the handler
    gives to that request: header, summary, listing, one expander per
    non-blank line, and the videos the search returned, if any. *)
Theorem explain_page :
  forall env render f base,
    ~ blank (App.source f) ->
    exists t videos,
      post_explain env (App.payload f) =
        (t, Ok200 (response_of (App.source f) videos)) /\
      Front.explain_action (connected env base) render f =
      bind (request_events (connected env base) (lit "/explain")
              (App.payload f) ++
            page_top f (explain_summary
                          (List.length (explain_lines (App.source f)))) ++
            flat_map (line_widgets render (App.language_name (App.lang f)))
              (explain_lines (App.source f)), Returned tt)
           (fun _ => page_videos render videos).
Proof.
  intros env render f base Hnb.
  destruct (payload_answer env f Hnb) as (t & videos & Hp & Hinc).
  exists t, videos. split; [exact Hp|].
  unfold Front.explain_action.
  rewrite (post_json_success (connected env base) (lit "/explain")
             (App.payload f) 200
             (response_json (response_of (App.source f) videos))).
  - rewrite bind_returned.
    change (truthy (response_json (response_of (App.source f) videos)))
      with true. cbv iota.
    rewrite (page_for_answer render f videos Hnb Hinc).
    destruct (page_videos render videos) as [t' r].
    simpl. rewrite <- ?app_assoc. reflexivity.
  - unfold connected, Front.request_url.
    cbn [Front.post Front.BACKEND_URL].
    destruct (list_eq_dec N.eq_dec
                (Front.rstrip_slash base ++ lit "/explain")
                (Front.rstrip_slash base ++ lit "/explain"));
      [|contradiction].
    unfold backend_reply. now rewrite Hp.
  - lia.
Qed.

Lemma explain_page_witness :
  exists t videos,
    post_explain env_unconfigured
      (App.payload
         (App.mkForm App.python App.Beginner hi_bye None
            true false false false true 1024)) =
      (t, Ok200 (response_of hi_bye videos)) /\
    Front.explain_action (connected env_unconfigured (lit "http://backend/"))
      (fun _ => lit "n")
      (App.mkForm App.python App.Beginner hi_bye None
         true false false false true 1024) =
    bind (request_events (connected env_unconfigured (lit "http://backend/"))
            (lit "/explain")
            (App.payload
               (App.mkForm App.python App.Beginner hi_bye None
                  true false false false true 1024)) ++
          page_top
            (App.mkForm App.python App.Beginner hi_bye None
               true false false false true 1024)
            (explain_summary (List.length (explain_lines hi_bye))) ++
          flat_map (line_widgets (fun _ => lit "n") (lit "python"))
            (explain_lines hi_bye), Returned tt)
         (fun _ => page_videos (fun _ => lit "n") videos).
Proof.
  apply (explain_page env_unconfigured (fun _ => lit "n")
           (App.mkForm App.python App.Beginner hi_bye None
              true false false false true 1024)
           (lit "http://backend/")).
  intros B. apply strip_falsy_iff_blank in B. discriminate B.
Defined.

(** ** Labels and the video section of the page *)

(** X23. Every expander of a line explanation has a label that is not
    empty. A line with a number (other than 0) is labelled Line and the
    number; a line without one is labelled by its code, stripped and cut
    to 40 characters, or by the word Line when nothing is left of the
    code. *)
Theorem line_header_label :
  forall render ln code h,
    result (Front.line_header render ln code) = Returned h ->
    h <> [] /\
    (truthy ln = true -> h = lit "Line " ++ format_value render ln) /\
    (truthy ln = false ->
     (List.length h <= 40)%nat /\
     exists c, code = VStr c /\
               (h = firstn 40 (strip c) \/
                firstn 40 (strip c) = [] /\ h = lit "Line")).
Proof.
  intros render ln code h. unfold Front.line_header, result, ret, raise.
  destruct (truthy ln) eqn:Ht.
  - cbn [snd]. intros E. injection E as <-.
    split; [simpl; discriminate|]. split; [reflexivity|discriminate].
  - destruct code as [| | |c| |]; cbn [snd]; try discriminate.
    assert (Hlen : (List.length (firstn 40 (strip c)) <= 40)%nat)
      by (rewrite length_firstn; lia).
    remember (firstn 40 (strip c)) as short eqn:Hs.
    destruct short as [|x short]; cbn [nonempty];
      intros E; injection E as <-.
    + split; [simpl; discriminate|]. split; [discriminate|]. intros _.
      split; [simpl; lia|]. exists c. split; [reflexivity|]. right.
      split; [symmetry; exact Hs|reflexivity].
    + split; [discriminate|]. split; [discriminate|]. intros _.
      split; [exact Hlen|]. exists c. split; [reflexivity|].
      left. exact Hs.
Qed.

Lemma line_header_label_witness :
  (List.length (lit "x = compute(a, b)") <= 40)%nat /\
  lit "Line 7" <> [].
Proof.
  destruct (line_header_label (fun _ => lit "7") (VInt 0)
              (VStr (lit "   x = compute(a, b)  "))
              (lit "x = compute(a, b)") eq_refl) as (_ & _ & H).
  destruct (line_header_label (fun _ => lit "7") (VInt 7) (VStr [])
              (lit "Line 7") eq_refl) as (Hne & _).
  destruct (H eq_refl) as [Hlen _].
  split; [exact Hlen|exact Hne].
Defined.

Lemma trace_bind_Forall {E A B} (P : E -> Prop) (m : M E A)
    (k : A -> M E B) :
  Forall P (trace m) -> (forall a, Forall P (trace (k a))) ->
  Forall P (trace (bind m k)).
Proof.
  intros Hm Hk. rewrite trace_bind.
  destruct (result m); [|exact Hm].
  apply Forall_app. split; [exact Hm|apply Hk].
Qed.

Lemma for_each_Forall {E A B} (P : E -> Prop) (body : B -> A -> M E B)
    (xs : list A) :
  (forall acc x, Forall P (trace (body acc x))) ->
  forall acc, Forall P (trace (for_each xs body acc)).
Proof.
  intros Hb; induction xs as [|x xs IH]; intros acc; simpl;
    [constructor|].
  apply trace_bind_Forall; [apply Hb|exact IH].
Qed.

Lemma silent_Forall {E A} (P : E -> Prop) (m : M E A) :
  trace m = [] -> Forall P (trace m).
Proof. intros ->. constructor. Qed.

Lemma or_else_no_video (a : pyval) (d : pyval) (k : str) (v : pyval) :
  Forall no_video_widget (trace (Front.or_else a (py_get v k d))).
Proof.
  unfold Front.or_else. destruct (truthy a); [constructor|].
  apply silent_Forall, py_get_silent.
Qed.

Lemma show_line_no_video (render : pyval -> str) (lang : str)
    (item : pyval) :
  Forall no_video_widget (trace (Front.show_line render lang item)).
Proof.
  unfold Front.show_line.
  apply trace_bind_Forall; [apply silent_Forall, py_get_silent|intros a].
  apply trace_bind_Forall; [apply or_else_no_video|intros ln].
  apply trace_bind_Forall; [apply silent_Forall, py_get_silent|intros c].
  apply trace_bind_Forall; [apply silent_Forall, py_get_silent|intros b].
  apply trace_bind_Forall; [apply or_else_no_video|intros ex].
  apply trace_bind_Forall.
  - unfold Front.line_header. destruct (truthy ln); [constructor|].
    destruct c; constructor.
  - intros h. repeat constructor.
Qed.

(** X24. With the box for the videos unchecked the page never shows the
    section of the videos, whatever the answer contains: no player, no
    video title and no YouTube resources heading. *)
Theorem videos_hidden_when_unchecked :
  forall render f answer,
    App.include_youtube f = false ->
    Forall no_video_widget
      (trace (Front.show_explanation render f answer)).
Proof.
  intros render f answer Hoff. unfold Front.show_explanation.
  apply trace_bind_Forall; [repeat constructor|intros _].
  apply trace_bind_Forall; [apply silent_Forall, py_get_silent|intros sm].
  apply trace_bind_Forall.
  { destruct (truthy sm); repeat constructor. }
  intros _.
  apply trace_bind_Forall; [apply silent_Forall, py_get_silent|intros ls].
  apply trace_bind_Forall.
  - destruct ls as [| | | |[|item items]|];
      try (apply trace_bind_Forall;
           [apply silent_Forall, py_get_silent|intros by_ex];
           apply trace_bind_Forall; [apply or_else_no_video|intros ex];
           repeat constructor).
    apply trace_bind_Forall; [|intros _].
    { constructor; [|constructor]. intros E. vm_compute in E.
      discriminate E. }
    apply trace_bind_Forall; [repeat constructor|intros _].
    apply trace_bind_Forall; [repeat constructor|intros _].
    apply for_each_Forall. intros acc x. apply show_line_no_video.
  - intros _.
    apply trace_bind_Forall; [apply silent_Forall, py_get_silent|intros b].
    apply trace_bind_Forall; [apply or_else_no_video|intros vids].
    rewrite Hoff. constructor.
Qed.

Lemma videos_hidden_when_unchecked_witness :
  Forall no_video_widget
    (trace
       (Front.show_explanation (fun _ => [])
          (App.mkForm App.python App.Beginner hi_bye None
             true false false false false 1024)
          (VDict [(lit "related_videos",
                   VList [VDict [(lit "video_id", VStr (lit "a"))]])]))).
Proof.
  apply videos_hidden_when_unchecked. reflexivity.
Defined.
